(** * RQ Mobile API mock backend ([app/main.py]): a shallow embedding

    The program is a FastAPI application over two module-level objects,
    [MOCK_USERS] (a dict keyed by email) and [MOCK_PROPERTIES] (a list of
    50 generated property dicts).  Handlers are embedded as computations
    in a state-and-exception monad over that store and over the sources
    of nondeterminism the program reads ([random], [uuid.uuid4],
    [datetime.utcnow]).

    Conventions.
    - Python [int] is [Z]; Python [float] is a binary64 [float].
    - Python [str] is a [string] holding the UTF-8 encoding of the text.
      UTF-8 is self-synchronising, so substring containment of code
      point sequences and of their encodings coincide.
    - A dict with a fixed set of keys is a record; [MOCK_USERS], a dict
      used as a map, is a [gmap string User.t]. *)

From Stdlib Require Import ZArith String Ascii List Bool Lia Floats Uint63.
From stdpp Require Import base option gmap strings list fin_maps pretty.

Set Warnings "-inexact-float".

Local Open Scope string_scope.
Local Open Scope Z_scope.

(** ** Python built-ins used by the program *)

Module Py.

(** Exceptions other than [HTTPException] that the handlers can raise. *)
Inductive exn :=
| ZeroDivisionError
| KeyError (key : string)
| IndexError
| OverflowError
| ValueError.

(** What evaluating a Python expression or handler body gives: a
    value, an [HTTPException(status_code, detail={error, message})],
    or another exception. *)
Inductive outcome (A : Type) :=
| Ok (a : A)
| HTTPException (status_code : Z) (error message : string)
| Raised (e : exn).
Arguments Ok {A} a.
Arguments HTTPException {A} status_code error message.
Arguments Raised {A} e.

(** [a // b] on ints: floor division, [ZeroDivisionError] when
    [b == 0].  [Z.div] rounds towards minus infinity, as [//] does. *)
Definition floordiv (a b : Z) : outcome Z :=
  if b =? 0 then Raised ZeroDivisionError else Ok (a / b).

(** Index adjustment of a slice bound for a sequence of length [len]
    (step 1): a negative bound counts from the end, then the bound is
    clipped to [0, len]. *)
Definition adjust_index (len i : Z) : Z :=
  if i <? 0 then Z.max (i + len) 0 else Z.min i len.

(** [l[start:stop]]. *)
Definition slice {A} (l : list A) (start stop : Z) : list A :=
  let len := Z.of_nat (length l) in
  let lo := adjust_index len start in
  let hi := adjust_index len stop in
  firstn (Z.to_nat (hi - lo)) (skipn (Z.to_nat lo) l).

(** [q in s] on strings: [q] occurs in [s] as a contiguous substring. *)
Fixpoint str_in (q s : string) : bool :=
  String.prefix q s
  || match s with
     | EmptyString => false
     | String _ s' => str_in q s'
     end.

(** [s[:n]] on strings, for [n >= 0]. *)
Definition str_take (n : nat) (s : string) : string := String.substring 0 n s.

(** Truthiness of an [Optional[str]]: [None] and [""] are falsy. *)
Definition truthy (o : option string) : bool :=
  match o with
  | None => false
  | Some s => negb (String.eqb s "")
  end.

(** [str(n)] and [f"{n}"] for an int. *)
Definition str_of_int (n : Z) : string := pretty n.

(** A number that is an [int] or a [float] (the [rooms] vocabulary
    mixes both). *)
Inductive num :=
| Int (z : Z)
| Float (f : float).

(** Exact value of a finite nonzero float as [m * 2^e], truncated
    towards zero. *)
Definition trunc_finite (s : bool) (m : positive) (e : Z) : Z :=
  let v := if 0 <=? e then Z.pos m * 2 ^ e else Z.pos m / 2 ^ (- e) in
  if s then - v else v.

(** [int(f)] on a float: truncation towards zero; [ValueError] on
    NaN, [OverflowError] on an infinity. *)
Definition int_of_float (f : float) : outcome Z :=
  match Prim2SF f with
  | S754_zero _ => Ok 0
  | S754_finite s m e => Ok (trunc_finite s m e)
  | S754_infinity _ => Raised OverflowError
  | S754_nan => Raised ValueError
  end.

(** [int(x)] on a number. *)
Definition int (x : num) : outcome Z :=
  match x with
  | Int z => Ok z
  | Float f => int_of_float f
  end.

(** [round(f)] on a float: nearest integer, ties to even. *)
Definition round_finite (s : bool) (m : positive) (e : Z) : Z :=
  let v :=
    if 0 <=? e then Z.pos m * 2 ^ e
    else
      let d := 2 ^ (- e) in
      let q := Z.pos m / d in
      let r := Z.pos m mod d in
      if (d <? 2 * r) || ((d =? 2 * r) && Z.odd q) then q + 1 else q in
  if s then - v else v.

Definition round (f : float) : outcome Z :=
  match Prim2SF f with
  | S754_zero _ => Ok 0
  | S754_finite s m e => Ok (round_finite s m e)
  | S754_infinity _ => Raised OverflowError
  | S754_nan => Raised ValueError
  end.

(** [float(z)] for an int, as used when an int meets a float in
    arithmetic.  Below 2^53 in magnitude the int is representable and
    the conversion is the exact machine one; above, the value is
    rounded to nearest, ties to even, with [OverflowError] when it is
    too large for a binary64. *)
Definition float_of_int (z : Z) : outcome float :=
  if Z.abs z <? 2 ^ 53 then
    let x := PrimFloat.of_uint63 (Uint63.of_Z (Z.abs z)) in
    Ok (if z <? 0 then PrimFloat.opp x else x)
  else
    match binary_normalize prec emax z 0 false with
    | S754_infinity _ => Raised OverflowError
    | sf => Ok (SF2Prim sf)
    end.

(** [z * f] with [z] an int and [f] a float. *)
Definition mul_int_float (z : Z) (f : float) : outcome float :=
  match float_of_int z with
  | Ok x => Ok (x * f)%float
  | HTTPException c e m => HTTPException c e m
  | Raised e => Raised e
  end.

End Py.

(** Library functions of Python whose tables are not part of the
    program: [str.lower] (Unicode case mapping) and
    [datetime.isoformat] (calendar arithmetic).  The development is
    parametric in them. *)
Class PyLib := {
  lower : string -> string;
  lower_empty : lower "" = "";
  (** a [datetime] is the number of microseconds since [datetime.min] *)
  isoformat : Z -> string;
}.

(** ** Data model *)

Module Address.
Record t := mk {
  street : string;
  number : string;
  city : string;
  neighborhood : string;
  latitude : float;
  longitude : float;
}.
End Address.

Module Property.
Record t := mk {
  id : string;
  title : string;
  propertyType : string;
  address : Address.t;
  price : Z;
  pricePerSqm : Z;
  rooms : Py.num;
  sizeSqm : Z;
  floor : Z;
  totalFloors : Z;
  rqScore : Z;
  rqScoreLabel : string;
  primaryImageUrl : string;
  lastUpdatedAt : string;
  features : list string;
}.
End Property.

Module User.
Record t := mk {
  id : string;
  firstName : string;
  lastName : string;
  email : string;
  phone : option string;
  subscriptionTier : string;
  preferredLocations : list string;
  createdAt : string;
}.
End User.

(** The two module-level objects of the program. *)
Record Store := {
  MOCK_USERS : gmap string User.t;
  MOCK_PROPERTIES : list Property.t;
}.

(** What the program reads from outside: the generator behind the
    [random] module, the entropy behind [uuid.uuid4] and the clock
    behind [datetime.utcnow].  Each is a sequence of raw readings and
    the position of the next one. *)
Record Env := {
  random_source : nat -> Z;
  random_pos : nat;
  uuid_source : nat -> string;
  uuid_pos : nat;
  clock_source : nat -> Z;
  clock_pos : nat;
}.

Record World := {
  store : Store;
  env : Env;
}.

(** ** The monad of handler bodies: state over [World], with exceptions.
    State changes made before an exception is raised persist. *)

Definition M (A : Type) : Type := World -> Py.outcome A * World.

Definition ret {A} (a : A) : M A := fun w => (Py.Ok a, w).

Definition bind {A B} (m : M A) (k : A -> M B) : M B :=
  fun w =>
    match m w with
    | (Py.Ok a, w') => k a w'
    | (Py.HTTPException c e msg, w') => (Py.HTTPException c e msg, w')
    | (Py.Raised e, w') => (Py.Raised e, w')
    end.

Definition lift {A} (o : Py.outcome A) : M A := fun w => (o, w).

Definition raise {A} (e : Py.exn) : M A := lift (Py.Raised e).

Definition raise_http {A} (status_code : Z) (error message : string) : M A :=
  lift (Py.HTTPException status_code error message).

Definition get_store : M Store := fun w => (Py.Ok (store w), w).

Definition put_store (s : Store) : M unit :=
  fun w => (Py.Ok tt, {| store := s; env := env w |}).

Declare Scope py_scope.
Delimit Scope py_scope with py.
Notation "x <- m ;; k" := (bind m (fun x => k))
  (at level 100, m at next level, right associativity) : py_scope.
Notation "m ;;; k" := (bind m (fun _ => k))
  (at level 100, right associativity) : py_scope.
Local Open Scope py_scope.

(** [for x in l: body x] *)
Fixpoint for_each {A} (l : list A) (body : A -> M unit) : M unit :=
  match l with
  | [] => ret tt
  | x :: l' => body x ;;; for_each l' body
  end.

(** [[f x for x in l]] with an effectful [f], and the
    [acc = []; for x in l: acc.append(f x)] loops of the program. *)
Fixpoint map_m {A B} (f : A -> M B) (l : list A) : M (list B) :=
  match l with
  | [] => ret []
  | x :: l' => y <- f x ;; ys <- map_m f l' ;; ret (y :: ys)
  end.

(** *** The [random] module *)

Definition random_draw : M Z :=
  fun w =>
    let e := env w in
    (Py.Ok (random_source e (random_pos e)),
     {| store := store w;
        env := {| random_source := random_source e;
                  random_pos := S (random_pos e);
                  uuid_source := uuid_source e;
                  uuid_pos := uuid_pos e;
                  clock_source := clock_source e;
                  clock_pos := clock_pos e |} |}).

(** [random.randint(a, b)]: an int in [a, b]. *)
Definition randint (a b : Z) : M Z :=
  if b <? a then raise Py.ValueError
  else d <- random_draw ;; ret (a + d mod (b - a + 1)).

(** [random.choice(l)] *)
Definition choice {A} (l : list A) : M A :=
  match l with
  | [] => raise Py.IndexError
  | x :: _ =>
      d <- random_draw ;;
      ret (nth (Z.to_nat (d mod Z.of_nat (length l))) l x)
  end.

(** [random.random()]: a float in [0, 1), a multiple of 2^-53. *)
Definition random : M float :=
  d <- random_draw ;;
  ret (PrimFloat.of_uint63 (Uint63.of_Z (d mod 2 ^ 53)) / 9007199254740992)%float.

(** [random.uniform(a, b)] is [a + (b - a) * random()]. *)
Definition uniform (a b : float) : M float :=
  r <- random ;; ret (a + (b - a) * r)%float.

(** [random.sample(population, k)]: [k] elements drawn without
    replacement. *)
Fixpoint sample_from {A} (pool : list A) (k : nat) : M (list A) :=
  match k, pool with
  | O, _ => ret []
  | S _, [] => raise Py.ValueError
  | S k', x :: _ =>
      d <- random_draw ;;
      let j := Z.to_nat (d mod Z.of_nat (length pool)) in
      rest <- sample_from (delete j pool) k' ;;
      ret (nth j pool x :: rest)
  end.

Definition sample {A} (population : list A) (k : Z) : M (list A) :=
  if (k <? 0) || (Z.of_nat (length population) <? k) then raise Py.ValueError
  else sample_from population (Z.to_nat k).

(** *** [uuid] and [datetime] *)

(** [uuid.uuid4().hex] *)
Definition uuid4_hex : M string :=
  fun w =>
    let e := env w in
    (Py.Ok (uuid_source e (uuid_pos e)),
     {| store := store w;
        env := {| random_source := random_source e;
                  random_pos := random_pos e;
                  uuid_source := uuid_source e;
                  uuid_pos := S (uuid_pos e);
                  clock_source := clock_source e;
                  clock_pos := clock_pos e |} |}).

(** Number of microseconds from [datetime.min] to just after
    [datetime.max]: 3652059 days. *)
Definition datetime_span : Z := 3652059 * 86400 * 1000000.

(** [datetime.utcnow()] *)
Definition utcnow : M Z :=
  fun w =>
    let e := env w in
    (Py.Ok (clock_source e (clock_pos e) mod datetime_span),
     {| store := store w;
        env := {| random_source := random_source e;
                  random_pos := random_pos e;
                  uuid_source := uuid_source e;
                  uuid_pos := uuid_pos e;
                  clock_source := clock_source e;
                  clock_pos := S (clock_pos e) |} |}).

Definition days (n : Z) : Z := n * 86400 * 1000000.
Definition hours (n : Z) : Z := n * 3600 * 1000000.

(** [d + timedelta]: [OverflowError] outside [datetime.min, datetime.max]. *)
Definition datetime_add (d delta : Z) : M Z :=
  let r := d + delta in
  if (r <? 0) || (datetime_span <=? r) then raise Py.OverflowError else ret r.

Definition datetime_sub (d delta : Z) : M Z := datetime_add d (- delta).

(** ** Mock data *)

Definition seed_users : gmap string User.t :=
  <["demo@rq.app" :=
      {| User.id := "user-456";
         User.firstName := "דמו";
         User.lastName := "המשתמש";
         User.email := "demo@rq.app";
         User.phone := None;
         User.subscriptionTier := "free";
         User.preferredLocations := [];
         User.createdAt := "2025-01-01T00:00:00Z" |}]>
  (<["test@example.com" :=
      {| User.id := "user-123";
         User.firstName := "טסט";
         User.lastName := "משתמש";
         User.email := "test@example.com";
         User.phone := Some "+972501234567";
         User.subscriptionTier := "premium";
         User.preferredLocations := ["תל אביב"; "רמת גן"];
         User.createdAt := "2025-01-01T00:00:00Z" |}]> ∅).

Definition cities : list string :=
  ["תל אביב"; "ירושלים"; "חיפה"; "ראשון לציון"; "נתניה"].
Definition streets : list string :=
  ["הרצל"; "דיזנגוף"; "אלנבי"; "בוגרשוב"; "שבזי"].
Definition property_types : list string := ["apartment"; "penthouse"; "house"].
Definition feature_tags : list string :=
  ["mamad"; "elevator"; "parking"; "storage"; "balcony"; "renovated"].
Definition room_counts : list Py.num :=
  [Py.Float 1.5; Py.Int 2; Py.Float 2.5; Py.Int 3; Py.Float 3.5; Py.Int 4; Py.Int 5].
Definition score_labels : list string := ["השקעה מצוינת"; "השקעה טובה"; "הוגן"].

(** [MOCK_PROPERTIES.append(prop)] *)
Definition append_property (prop : Property.t) : M unit :=
  s <- get_store ;;
  put_store {| MOCK_USERS := MOCK_USERS s;
               MOCK_PROPERTIES := MOCK_PROPERTIES s ++ [prop] |}.

(** The body of the loop of [generate_mock_properties], for one [i]. *)
Definition generate_property (i : Z) : M Property.t :=
  city <- choice cities ;;
  price <- randint 1000000 6000000 ;;
  size <- randint 50 150 ;;
  rooms <- choice room_counts ;;
  rooms_int <- lift (Py.int rooms) ;;
  propertyType <- choice property_types ;;
  street <- choice streets ;;
  number <- randint 1 100 ;;
  neighborhood <- randint 1 10 ;;
  r_lat <- random ;;
  r_lon <- random ;;
  pricePerSqm <- lift (Py.floordiv price size) ;;
  floor <- randint 1 15 ;;
  totalFloors <- randint 3 20 ;;
  rqScore <- randint 40 95 ;;
  rqScoreLabel <- choice score_labels ;;
  k <- randint 0 4 ;;
  features <- sample feature_tags k ;;
  ret {| Property.id := "property-" ++ Py.str_of_int i;
         Property.title :=
           "דירה " ++ Py.str_of_int rooms_int ++ " חדרים ב" ++ city;
         Property.propertyType := propertyType;
         Property.address :=
           {| Address.street := street;
              Address.number := Py.str_of_int number;
              Address.city := city;
              Address.neighborhood := "שכונת " ++ Py.str_of_int neighborhood;
              Address.latitude := (32.0 + r_lat)%float;
              Address.longitude := (34.0 + r_lon)%float |};
         Property.price := price;
         Property.pricePerSqm := pricePerSqm;
         Property.rooms := rooms;
         Property.sizeSqm := size;
         Property.floor := floor;
         Property.totalFloors := totalFloors;
         Property.rqScore := rqScore;
         Property.rqScoreLabel := rqScoreLabel;
         Property.primaryImageUrl :=
           "https://picsum.photos/400/300?random=" ++ Py.str_of_int i;
         Property.lastUpdatedAt := "2025-01-15T10:30:00Z";
         Property.features := features |}.

(** [for i in range(1, 51): ...; MOCK_PROPERTIES.append(prop)] *)
Definition generate_mock_properties : M unit :=
  for_each (seqZ 1 50) (fun i => prop <- generate_property i ;; append_property prop).

(** The module-level statements: the two objects are created, then
    [generate_mock_properties()] runs once. *)
Definition initial_store : Store :=
  {| MOCK_USERS := seed_users; MOCK_PROPERTIES := [] |}.

Definition startup (e : Env) : Py.outcome unit * World :=
  generate_mock_properties {| store := initial_store; env := e |}.

(** The catalog a process started in environment [e] holds. *)
Definition catalog (e : Env) : list Property.t :=
  MOCK_PROPERTIES (store (snd (startup e))).

(** ** Schemas: request payloads *)

Module RegisterRequest.
Record t := mk {
  firstName : string;
  lastName : string;
  email : string;
  password : string;
  phone : option string;
}.
End RegisterRequest.

Module LoginRequest.
Record t := mk { email : string; password : string }.
End LoginRequest.

Module RefreshRequest.
Record t := mk { refreshToken : string }.
End RefreshRequest.

Module SavePropertyRequest.
Record t := mk { propertyId : string; alertsEnabled : option bool }.
End SavePropertyRequest.

Module ReceiptVerifyRequest.
Record t := mk { receiptData : string; productId : option string }.
End ReceiptVerifyRequest.

(** ** Response shapes *)

Module Tokens.
Record t := mk { accessToken : string; refreshToken : string; expiresIn : Z }.
End Tokens.

Module AuthResponse.
Record t := mk { user : User.t; tokens : Tokens.t }.
End AuthResponse.

Module Meta.
Record t := mk { page : Z; pageSize : Z; totalPages : Z; totalItems : Z }.
End Meta.

Module SearchResponse.
Record t := mk { items : list Property.t; meta : Meta.t }.
End SearchResponse.

Module Media.
Record t := mk { images : list string; videos : list string }.
End Media.

Module Amenities.
Record t := mk {
  mamad : bool;
  elevator : bool;
  parkingSpots : Z;
  storage : bool;
  balconySizeSqm : Z;
  renovated : bool;
  accessible : bool;
  ac : bool;
}.
End Amenities.

Module Prediction.
Record t := mk {
  forecast12Months : Z;
  forecast24Months : Z;
  forecast60Months : Z;
  expectedIncreasePct : float;
  annualRoiPct : float;
  confidencePct : Z;
}.
End Prediction.

Module NeighborhoodAmenities.
Record t := mk { schools : Z; parks : Z; transitLines : Z; shoppingCenters : Z }.
End NeighborhoodAmenities.

Module Neighborhood.
Record t := mk {
  name : string;
  avgPricePerSqm : Z;
  avgRqScore : Z;
  propertiesCount : Z;
  amenities : NeighborhoodAmenities.t;
}.
End Neighborhood.

Module Reason.
Record t := mk { label : string; sentiment : string }.
End Reason.

(** [prop.copy()] updated with the detail keys, none of which is a key
    of a stored property: the stored fields and the added ones. *)
Module FullProperty.
Record t := mk {
  base : Property.t;
  description : string;
  media : Media.t;
  amenities : Amenities.t;
  prediction : Prediction.t;
  neighborhood : Neighborhood.t;
  reasons : list Reason.t;
}.
End FullProperty.

Module SavedMeta.
Record t := mk {
  savedAt : string;
  alertsEnabled : option bool;
  lastChange : option string;
  daysSaved : Z;
}.
End SavedMeta.

Module SavedProperty.
Record t := mk { id : string; property : Property.t; meta : SavedMeta.t }.
End SavedProperty.

Module Subscription.
Record t := mk { tier : string; expiresAt : string; autoRenewing : bool }.
End Subscription.

Module NotificationMetadata.
Record t := mk {
  thumbnailUrl : string;
  city : string;
  rqScore : Z;
  price : Z;
  changePercent : float;
}.
End NotificationMetadata.

Module Notification.
Record t := mk {
  id : string;
  type : string;
  title : string;
  body : string;
  createdAt : string;
  readAt : option string;
  propertyId : string;
  savedSearchId : option string;
  metadata : NotificationMetadata.t;
}.
End Notification.

Module NotificationsResponse.
Record t := mk { items : list Notification.t; meta : Meta.t }.
End NotificationsResponse.

Module ReceiptResponse.
Record t := mk { success : bool; subscription : Subscription.t; message : string }.
End ReceiptResponse.

(** ** Helpers and handlers *)

Section Handlers.
Context `{PyLib}.

(** [d[key]] on [MOCK_USERS]: [KeyError] when absent. *)
Definition subscript (d : gmap string User.t) (key : string) : M User.t :=
  match d !! key with
  | Some u => ret u
  | None => raise (Py.KeyError key)
  end.

(** [key in d] *)
Definition contains (d : gmap string User.t) (key : string) : bool :=
  match d !! key with
  | Some _ => true
  | None => false
  end.

Definition generate_tokens (user_id : string) : M Tokens.t :=
  h1 <- uuid4_hex ;;
  h2 <- uuid4_hex ;;
  ret {| Tokens.accessToken := "access-token-" ++ user_id ++ "-" ++ Py.str_take 16 h1;
         Tokens.refreshToken := "refresh-token-" ++ user_id ++ "-" ++ Py.str_take 16 h2;
         Tokens.expiresIn := 3600 |}.

Definition health_ping : M string := ret "ok".

Definition register (payload : RegisterRequest.t) : M AuthResponse.t :=
  s <- get_store ;;
  if contains (MOCK_USERS s) (RegisterRequest.email payload) then
    raise_http 409 "conflict" "Email already exists"
  else
    h <- uuid4_hex ;;
    let user_id := "user-" ++ Py.str_take 8 h in
    now <- utcnow ;;
    let user :=
      {| User.id := user_id;
         User.firstName := RegisterRequest.firstName payload;
         User.lastName := RegisterRequest.lastName payload;
         User.email := RegisterRequest.email payload;
         User.phone := RegisterRequest.phone payload;
         User.subscriptionTier := "free";
         User.preferredLocations := [];
         User.createdAt := isoformat now ++ "Z" |} in
    s <- get_store ;;
    put_store {| MOCK_USERS := <[RegisterRequest.email payload := user]> (MOCK_USERS s);
                 MOCK_PROPERTIES := MOCK_PROPERTIES s |} ;;;
    tokens <- generate_tokens user_id ;;
    ret {| AuthResponse.user := user; AuthResponse.tokens := tokens |}.

(** [password in {"password123", "demo123"}] *)
Definition accepted_password (password : string) : bool :=
  String.eqb password "password123" || String.eqb password "demo123".

Definition login (payload : LoginRequest.t) : M AuthResponse.t :=
  let email := LoginRequest.email payload in
  let password := LoginRequest.password payload in
  s <- get_store ;;
  if negb (contains (MOCK_USERS s) email) || negb (accepted_password password) then
    raise_http 401 "unauthorized" "Invalid credentials"
  else
    user <- subscript (MOCK_USERS s) email ;;
    tokens <- generate_tokens (User.id user) ;;
    ret {| AuthResponse.user := user; AuthResponse.tokens := tokens |}.

Definition refresh_token (payload : RefreshRequest.t) : M Tokens.t :=
  let user_id := "user-123" in
  generate_tokens user_id.

Definition logout : M unit := ret tt.

Definition verify_device : M unit := ret tt.

(** The predicate of the list comprehension of [search_properties],
    with [q] the lowered query. *)
Definition matches (q : string) (p : Property.t) : bool :=
  Py.str_in q (lower (Address.city (Property.address p)))
  || Py.str_in q (lower (Property.title p)).

(** The value of [filtered] when the pagination starts. *)
Definition filtered_properties (query : option string) (properties : list Property.t)
  : list Property.t :=
  let filtered := properties in
  match query with
  | Some text =>
      if Py.truthy query then
        let q := lower text in
        List.filter (matches q) filtered
      else filtered
  | None => filtered
  end.

Definition search_properties (page pageSize : Z) (query : option string)
  : M SearchResponse.t :=
  let page_size := Z.min pageSize 50 in
  s <- get_store ;;
  let filtered := filtered_properties query (MOCK_PROPERTIES s) in
  let start := (page - 1) * page_size in
  let end_ := start + page_size in
  let items := Py.slice filtered start end_ in
  totalPages <- lift (Py.floordiv (Z.of_nat (length filtered)) page_size) ;;
  ret {| SearchResponse.items := items;
         SearchResponse.meta :=
           {| Meta.page := page;
              Meta.pageSize := page_size;
              Meta.totalPages := totalPages + 1;
              Meta.totalItems := Z.of_nat (length filtered) |} |}.

(** [next((p for p in MOCK_PROPERTIES if p["id"] == property_id), None)] *)
Definition find_property (properties : list Property.t) (property_id : string)
  : option Property.t :=
  List.find (fun p => String.eqb (Property.id p) property_id) properties.

Definition get_property (property_id : string) : M FullProperty.t :=
  s <- get_store ;;
  match find_property (MOCK_PROPERTIES s) property_id with
  | None => raise_http 404 "not_found" "Property not found"
  | Some prop =>
      let full_property := prop in
      let description :=
        Property.title full_property ++ ". דירה מרווחת ומוארת ב"
        ++ Address.city (Property.address full_property) ++ "." in
      let media :=
        {| Media.images :=
             ["https://picsum.photos/600/400?random=" ++ property_id ++ "-1";
              "https://picsum.photos/600/400?random=" ++ property_id ++ "-2";
              "https://picsum.photos/600/400?random=" ++ property_id ++ "-3"];
           Media.videos := [] |} in
      mamad <- choice [true; false] ;;
      elevator <- choice [true; false] ;;
      parkingSpots <- randint 0 2 ;;
      storage <- choice [true; false] ;;
      balconySizeSqm <- randint 0 20 ;;
      renovated <- choice [true; false] ;;
      accessible <- choice [true; false] ;;
      ac <- choice [true; false] ;;
      x12 <- lift (Py.mul_int_float (Property.price full_property) 1.05) ;;
      forecast12Months <- lift (Py.int_of_float x12) ;;
      x24 <- lift (Py.mul_int_float (Property.price full_property) 1.08) ;;
      forecast24Months <- lift (Py.int_of_float x24) ;;
      x60 <- lift (Py.mul_int_float (Property.price full_property) 1.15) ;;
      forecast60Months <- lift (Py.int_of_float x60) ;;
      perSqm <- lift (Py.floordiv (Property.price full_property)
                                  (Property.sizeSqm full_property)) ;;
      delta <- randint (-5000) 5000 ;;
      avgRqScore <- randint 70 85 ;;
      propertiesCount <- randint 50 200 ;;
      schools <- randint 1 5 ;;
      parks <- randint 1 3 ;;
      transitLines <- randint 2 8 ;;
      shoppingCenters <- randint 1 4 ;;
      ret {| FullProperty.base := full_property;
             FullProperty.description := description;
             FullProperty.media := media;
             FullProperty.amenities :=
               {| Amenities.mamad := mamad;
                  Amenities.elevator := elevator;
                  Amenities.parkingSpots := parkingSpots;
                  Amenities.storage := storage;
                  Amenities.balconySizeSqm := balconySizeSqm;
                  Amenities.renovated := renovated;
                  Amenities.accessible := accessible;
                  Amenities.ac := ac |};
             FullProperty.prediction :=
               {| Prediction.forecast12Months := forecast12Months;
                  Prediction.forecast24Months := forecast24Months;
                  Prediction.forecast60Months := forecast60Months;
                  Prediction.expectedIncreasePct := 5.0;
                  Prediction.annualRoiPct := 2.5;
                  Prediction.confidencePct := 80 |};
             FullProperty.neighborhood :=
               {| Neighborhood.name :=
                    Address.neighborhood (Property.address full_property);
                  Neighborhood.avgPricePerSqm := perSqm + delta;
                  Neighborhood.avgRqScore := avgRqScore;
                  Neighborhood.propertiesCount := propertiesCount;
                  Neighborhood.amenities :=
                    {| NeighborhoodAmenities.schools := schools;
                       NeighborhoodAmenities.parks := parks;
                       NeighborhoodAmenities.transitLines := transitLines;
                       NeighborhoodAmenities.shoppingCenters := shoppingCenters |} |};
             FullProperty.reasons :=
               [ {| Reason.label := "מיקום מרכזי"; Reason.sentiment := "positive" |};
                 {| Reason.label := "מחיר תחרותי"; Reason.sentiment := "positive" |} ] |}
  end.

(** One iteration of the loop of [get_saved_properties]. *)
Definition saved_entry (prop : Property.t) : M SavedProperty.t :=
  now <- utcnow ;;
  d <- randint 1 30 ;;
  savedAt <- datetime_sub now (days d) ;;
  alertsEnabled <- choice [true; false] ;;
  lastChange <- choice [None; Some "המחיר ירד ב-2%"; Some "סטטוס עודכן"] ;;
  daysSaved <- randint 1 30 ;;
  ret {| SavedProperty.id := "saved-" ++ Property.id prop;
         SavedProperty.property := prop;
         SavedProperty.meta :=
           {| SavedMeta.savedAt := isoformat savedAt ++ "Z";
              SavedMeta.alertsEnabled := Some alertsEnabled;
              SavedMeta.lastChange := lastChange;
              SavedMeta.daysSaved := daysSaved |} |}.

Definition get_saved_properties : M (list SavedProperty.t) :=
  s <- get_store ;;
  map_m saved_entry (Py.slice (MOCK_PROPERTIES s) 0 5).

Definition save_property (payload : SavePropertyRequest.t) : M SavedProperty.t :=
  s <- get_store ;;
  match find_property (MOCK_PROPERTIES s) (SavePropertyRequest.propertyId payload) with
  | None => raise_http 404 "not_found" "Property not found"
  | Some prop =>
      now <- utcnow ;;
      ret {| SavedProperty.id := "saved-" ++ SavePropertyRequest.propertyId payload;
             SavedProperty.property := prop;
             SavedProperty.meta :=
               {| SavedMeta.savedAt := isoformat now ++ "Z";
                  SavedMeta.alertsEnabled := SavePropertyRequest.alertsEnabled payload;
                  SavedMeta.lastChange := None;
                  SavedMeta.daysSaved := 0 |} |}
  end.

Definition delete_saved_property (saved_id : string) : M unit := ret tt.

Definition get_profile : M User.t :=
  s <- get_store ;;
  subscript (MOCK_USERS s) "test@example.com".

Definition get_subscription : M Subscription.t :=
  now <- utcnow ;;
  expiresAt <- datetime_add now (days 30) ;;
  ret {| Subscription.tier := "premium";
         Subscription.expiresAt := isoformat expiresAt ++ "Z";
         Subscription.autoRenewing := true |}.

(** One iteration of the loop of [get_notifications]. *)
Definition notification (i : Z) : M Notification.t :=
  type <- choice ["new_property"; "price_drop"; "rq_change"] ;;
  now <- utcnow ;;
  createdAt <- datetime_sub now (hours i) ;;
  n <- randint 1 50 ;;
  rqScore <- randint 60 90 ;;
  price <- randint 1500000 4000000 ;;
  changePercent <- uniform (-5) 5 ;;
  ret {| Notification.id := "notif-" ++ Py.str_of_int i;
         Notification.type := type;
         Notification.title := "עדכון חדש";
         Notification.body := "המחיר של נכס שמור ירד ב-2%";
         Notification.createdAt := isoformat createdAt ++ "Z";
         Notification.readAt := None;
         Notification.propertyId := "property-" ++ Py.str_of_int n;
         Notification.savedSearchId := None;
         Notification.metadata :=
           {| NotificationMetadata.thumbnailUrl := "https://picsum.photos/100/100?random=1";
              NotificationMetadata.city := "תל אביב";
              NotificationMetadata.rqScore := rqScore;
              NotificationMetadata.price := price;
              NotificationMetadata.changePercent := changePercent |} |}.

Definition get_notifications (page pageSize : Z) : M NotificationsResponse.t :=
  notifications <- map_m notification (seqZ 0 pageSize) ;;
  ret {| NotificationsResponse.items := notifications;
         NotificationsResponse.meta :=
           {| Meta.page := page;
              Meta.pageSize := pageSize;
              Meta.totalPages := 3;
              Meta.totalItems := 25 |} |}.

Definition mark_notification_read (notification_id : string) : M unit := ret tt.

Definition verify_receipt (payload : ReceiptVerifyRequest.t) : M ReceiptResponse.t :=
  now <- utcnow ;;
  expiresAt <- datetime_add now (days 30) ;;
  ret {| ReceiptResponse.success := true;
         ReceiptResponse.subscription :=
           {| Subscription.tier := "premium";
              Subscription.expiresAt := isoformat expiresAt ++ "Z";
              Subscription.autoRenewing := true |};
         ReceiptResponse.message := "Subscription activated" |}.

End Handlers.

(** ** The application: handler calls and routing *)

(** A response body, by handler. *)
Inductive Response :=
| StatusBody (status : string)
| AuthBody (r : AuthResponse.t)
| TokensBody (t : Tokens.t)
| EmptyBody
| SearchBody (r : SearchResponse.t)
| PropertyBody (p : FullProperty.t)
| SavedListBody (items : list SavedProperty.t)
| SavedBody (s : SavedProperty.t)
| UserBody (u : User.t)
| SubscriptionBody (s : Subscription.t)
| NotificationsBody (r : NotificationsResponse.t)
| ReceiptBody (r : ReceiptResponse.t).

(** A handler together with the arguments the framework calls it with. *)
Inductive Call :=
| call_health_ping
| call_register (payload : RegisterRequest.t)
| call_login (payload : LoginRequest.t)
| call_refresh_token (payload : RefreshRequest.t)
| call_logout
| call_verify_device
| call_search_properties (page pageSize : Z) (query : option string)
| call_get_property (property_id : string)
| call_get_saved_properties
| call_save_property (payload : SavePropertyRequest.t)
| call_delete_saved_property (saved_id : string)
| call_get_profile
| call_get_subscription
| call_get_notifications (page pageSize : Z)
| call_mark_notification_read (notification_id : string)
| call_verify_receipt (payload : ReceiptVerifyRequest.t).

Definition returning {A} (wrap : A -> Response) (m : M A) : M Response :=
  a <- m ;; ret (wrap a).

Definition run `{PyLib} (c : Call) : M Response :=
  match c with
  | call_health_ping => returning StatusBody health_ping
  | call_register payload => returning AuthBody (register payload)
  | call_login payload => returning AuthBody (login payload)
  | call_refresh_token payload => returning TokensBody (refresh_token payload)
  | call_logout => returning (fun _ => EmptyBody) logout
  | call_verify_device => returning (fun _ => EmptyBody) verify_device
  | call_search_properties page pageSize query =>
      returning SearchBody (search_properties page pageSize query)
  | call_get_property property_id => returning PropertyBody (get_property property_id)
  | call_get_saved_properties => returning SavedListBody get_saved_properties
  | call_save_property payload => returning SavedBody (save_property payload)
  | call_delete_saved_property saved_id =>
      returning (fun _ => EmptyBody) (delete_saved_property saved_id)
  | call_get_profile => returning UserBody get_profile
  | call_get_subscription => returning SubscriptionBody get_subscription
  | call_get_notifications page pageSize =>
      returning NotificationsBody (get_notifications page pageSize)
  | call_mark_notification_read notification_id =>
      returning (fun _ => EmptyBody) (mark_notification_read notification_id)
  | call_verify_receipt payload => returning ReceiptBody (verify_receipt payload)
  end.

Inductive Method := GET | POST | PUT | DELETE | HEAD | OPTIONS | PATCH.

Definition Method_eqb (a b : Method) : bool :=
  match a, b with
  | GET, GET | POST, POST | PUT, PUT | DELETE, DELETE
  | HEAD, HEAD | OPTIONS, OPTIONS | PATCH, PATCH => true
  | _, _ => false
  end.

(** The handler functions, as route endpoints. *)
Inductive Endpoint :=
| ep_health_ping | ep_register | ep_login | ep_refresh_token | ep_logout
| ep_verify_device | ep_search_properties | ep_get_property
| ep_get_saved_properties | ep_save_property | ep_delete_saved_property
| ep_get_profile | ep_get_subscription | ep_get_notifications
| ep_mark_notification_read | ep_verify_receipt.

(** The [@app.<method>(path)] decorators, in the order in which the
    module executes them: this is the order of [app.router.routes]
    among the program's own routes. *)
Definition routes : list (Method * string * Endpoint) :=
  [ (GET, "/health/ping", ep_health_ping);
    (POST, "/api/v2/mobile/auth/register", ep_register);
    (POST, "/api/v2/mobile/auth/login", ep_login);
    (POST, "/api/v2/mobile/auth/refresh", ep_refresh_token);
    (POST, "/api/v2/mobile/auth/logout", ep_logout);
    (POST, "/api/v2/mobile/auth/verify-device", ep_verify_device);
    (GET, "/api/v2/mobile/properties/search", ep_search_properties);
    (GET, "/api/v2/mobile/properties/{property_id}", ep_get_property);
    (GET, "/api/v2/mobile/properties/saved", ep_get_saved_properties);
    (POST, "/api/v2/mobile/properties/saved", ep_save_property);
    (DELETE, "/api/v2/mobile/properties/saved/{saved_id}", ep_delete_saved_property);
    (GET, "/api/v2/mobile/user/profile", ep_get_profile);
    (GET, "/api/v2/mobile/user/subscription", ep_get_subscription);
    (GET, "/api/v2/mobile/notifications", ep_get_notifications);
    (PUT, "/api/v2/mobile/notifications/{notification_id}/read", ep_mark_notification_read);
    (POST, "/api/v2/mobile/billing/ios/verify", ep_verify_receipt) ].

(** [s.split("/")] *)
Fixpoint split_slash (s : string) : list string :=
  match s with
  | EmptyString => [EmptyString]
  | String c s' =>
      if Ascii.eqb c "/"%char then EmptyString :: split_slash s'
      else match split_slash s' with
           | [] => [String c EmptyString]
           | seg :: segs => String c seg :: segs
           end
  end.

(** A template segment [{name}] is a path parameter; it stands for
    [[^/]+], one non-empty segment. *)
Definition param_name (seg : string) : option string :=
  match seg with
  | String "{"%char rest =>
      let n := String.length rest in
      if String.eqb (String.substring (n - 1) 1 rest) "}"
      then Some (String.substring 0 (n - 1) rest)
      else None
  | _ => None
  end.

(** The line feed, [chr(10)]. *)
Definition newline : string := String (ascii_of_nat 10) EmptyString.

(** The framework compiles a template to a regular expression anchored
    with [^] and [$] and applies [re.match].  In Python [$] matches at
    the end of the string and also just before a line feed that ends
    the string: a template that ends in a literal segment also matches
    the path followed by one line feed.  A parameter, [[^/]+], takes
    its whole segment, line feeds included. *)
Definition literal_at_end (t p : string) : bool :=
  String.eqb t p || String.eqb (t ++ newline) p.

(** Matching a path against a path template, segment by segment; on
    success, the values of the path parameters. *)
Fixpoint match_segments (template path : list string) : option (list (string * string)) :=
  match template, path with
  | [], [] => Some []
  | t :: template', p :: path' =>
      match param_name t with
      | Some name =>
          if String.eqb p "" then None
          else match match_segments template' path' with
               | Some params => Some ((name, p) :: params)
               | None => None
               end
      | None =>
          match template', path' with
          | [], [] => if literal_at_end t p then Some [] else None
          | _, _ => if String.eqb t p then match_segments template' path' else None
          end
      end
  | _, _ => None
  end.

Definition match_path (template path : string) : option (list (string * string)) :=
  match_segments (split_slash template) (split_slash path).

(** The router's choice: the first route whose path and method both
    match; when none does, whether some route matched the path alone. *)
Inductive Routed :=
| FullMatch (ep : Endpoint) (path_params : list (string * string))
| PartialMatch
| NoMatch.

Fixpoint route (rs : list (Method * string * Endpoint)) (m : Method) (path : string)
  : Routed :=
  match rs with
  | [] => NoMatch
  | (m', template, ep) :: rs' =>
      match match_path template path with
      | Some params =>
          if Method_eqb m m' then FullMatch ep params
          else match route rs' m path with
               | FullMatch ep' params' => FullMatch ep' params'
               | _ => PartialMatch
               end
      | None => route rs' m path
      end
  end.

(** The parts of a request the handlers' signatures draw on, after the
    framework has parsed them: query parameters and a JSON body that
    validates against one of the payload schemas. *)
Inductive Body :=
| no_body
| register_body (payload : RegisterRequest.t)
| login_body (payload : LoginRequest.t)
| refresh_body (payload : RefreshRequest.t)
| save_property_body (payload : SavePropertyRequest.t)
| receipt_body (payload : ReceiptVerifyRequest.t).

Record Request := {
  method : Method;
  path : string;
  page : option Z;
  pageSize : option Z;
  query : option string;
  body : Body;
}.

Definition path_param (name : string) (params : list (string * string)) : string :=
  match List.find (fun kv => String.eqb (fst kv) name) params with
  | Some kv => snd kv
  | None => ""
  end.

(** Binding the arguments of the handler; the defaults are those of the
    signatures.  [None] when the body does not validate. *)
Definition bind_arguments (ep : Endpoint) (params : list (string * string)) (req : Request)
  : option Call :=
  match ep with
  | ep_health_ping => Some call_health_ping
  | ep_register =>
      match body req with register_body p => Some (call_register p) | _ => None end
  | ep_login =>
      match body req with login_body p => Some (call_login p) | _ => None end
  | ep_refresh_token =>
      match body req with refresh_body p => Some (call_refresh_token p) | _ => None end
  | ep_logout => Some call_logout
  | ep_verify_device => Some call_verify_device
  | ep_search_properties =>
      Some (call_search_properties (default 1 (page req)) (default 20 (pageSize req))
                                   (query req))
  | ep_get_property => Some (call_get_property (path_param "property_id" params))
  | ep_get_saved_properties => Some call_get_saved_properties
  | ep_save_property =>
      match body req with save_property_body p => Some (call_save_property p) | _ => None end
  | ep_delete_saved_property =>
      Some (call_delete_saved_property (path_param "saved_id" params))
  | ep_get_profile => Some call_get_profile
  | ep_get_subscription => Some call_get_subscription
  | ep_get_notifications =>
      Some (call_get_notifications (default 1 (page req)) (default 10 (pageSize req)))
  | ep_mark_notification_read =>
      Some (call_mark_notification_read (path_param "notification_id" params))
  | ep_verify_receipt =>
      match body req with receipt_body p => Some (call_verify_receipt p) | _ => None end
  end.

(** What the application does with a request: run a handler, or answer
    by itself when no route matches fully or the body does not
    validate. *)
Inductive Served :=
| Handled (c : Call) (r : Py.outcome Response)
| Unprocessable
| MethodNotAllowed
| NoRoute.

Definition serve `{PyLib} (req : Request) (w : World) : Served * World :=
  match route routes (method req) (path req) with
  | FullMatch ep params =>
      match bind_arguments ep params req with
      | Some c => let (r, w') := run c w in (Handled c r, w')
      | None => (Unprocessable, w)
      end
  | PartialMatch => (MethodNotAllowed, w)
  | NoMatch => (NoRoute, w)
  end.

(** The HTTP status of the answer, where the program determines it. *)
Definition status (s : Served) : option Z :=
  match s with
  | Handled _ (Py.Ok _) => Some 200
  | Handled _ (Py.HTTPException code _ _) => Some code
  | Handled _ (Py.Raised _) => Some 500
  | Unprocessable => Some 422
  | MethodNotAllowed => Some 405
  | NoRoute => None
  end.

(** The states of a running process: the state after the module has
    been loaded, and every state a request leads to from there. *)
Inductive reachable `{PyLib} : World -> Prop :=
| reachable_startup (e : Env) : reachable (snd (startup e))
| reachable_serve (req : Request) (w : World) :
    reachable w -> reachable (snd (serve req w)).

(** A concrete instance for examples: ASCII case mapping, other bytes
    unchanged (text without cased letters outside ASCII), and a
    placeholder rendering of timestamps. *)
Definition ascii_lower_char (c : ascii) : ascii :=
  let n := nat_of_ascii c in
  if (65 <=? n)%nat && (n <=? 90)%nat then ascii_of_nat (n + 32) else c.

Fixpoint ascii_lower (s : string) : string :=
  match s with
  | EmptyString => EmptyString
  | String c s' => String (ascii_lower_char c) (ascii_lower s')
  end.

Definition example_lib : PyLib :=
  {| lower := ascii_lower;
     lower_empty := eq_refl;
     isoformat := fun t => "T+" ++ Py.str_of_int t |}.

(** An environment whose every reading is [0]. *)
Definition zero_env : Env :=
  {| random_source := fun _ => 0;
     random_pos := 0;
     uuid_source := fun _ => "00000000000000000000000000000000";
     uuid_pos := 0;
     clock_source := fun _ => 0;
     clock_pos := 0 |}.


(** * Vocabulary of the statements *)

(** [int(price * factor)], the expression of the forecast fields. *)
Definition int_of_product (price : Z) (factor : float) : Py.outcome Z :=
  match Py.mul_int_float price factor with
  | Py.Ok x => Py.int_of_float x
  | Py.HTTPException c e m => Py.HTTPException c e m
  | Py.Raised e => Py.Raised e
  end.

(** [round(price * factor)] *)
Definition round_of_product (price : Z) (factor : float) : Py.outcome Z :=
  match Py.mul_int_float price factor with
  | Py.Ok x => Py.round x
  | Py.HTTPException c e m => Py.HTTPException c e m
  | Py.Raised e => Py.Raised e
  end.


(** Weakest precondition for a returned value: [m] run in [w] returns,
    and its value and final state satisfy [Q]. *)
Definition wp {A} (m : M A) (w : World) (Q : A -> World -> Prop) : Prop :=
  exists a w', m w = (Py.Ok a, w') /\ Q a w'.

(** [m] never writes the store, whatever its outcome. *)
Definition keeps_store {A} (m : M A) : Prop :=
  forall w, store (snd (m w)) = store w.

(** What the generator guarantees about the property made for [i]. *)
Definition generated (i : Z) (p : Property.t) : Prop :=
  Property.id p = "property-" ++ Py.str_of_int i
  /\ 1000000 <= Property.price p <= 6000000
  /\ 50 <= Property.sizeSqm p <= 150
  /\ Property.pricePerSqm p = Property.price p / Property.sizeSqm p
  /\ In (Address.city (Property.address p)) cities
  /\ exists n, In n [1; 2; 3; 4; 5]
       /\ Property.title p =
          "דירה " ++ Py.str_of_int n ++ " חדרים ב" ++ Address.city (Property.address p).

(** The ids of the catalog: [property-1] to [property-50]. *)
Definition catalog_ids : list string :=
  List.map (fun i => "property-" ++ Py.str_of_int i) (seqZ 1 50).

(** The elements of [l] at the positions [i] with [start <= i < stop],
    for [0 <= start]: the slice the pagination is meant to take. *)
Definition window {A} (l : list A) (start stop : Z) : list A :=
  firstn (Z.to_nat (stop - start)) (skipn (Z.to_nat start) l).


(** The search request [GET properties/search?page=..&pageSize=..&query=..]. *)
Definition search_request (page pageSize : option Z) (query : option string) : Request :=
  {| method := GET;
     path := "/api/v2/mobile/properties/search";
     page := page;
     pageSize := pageSize;
     query := query;
     body := no_body |}.

(** [GET /api/v2/mobile/properties/saved], the request of the
    saved-properties list. *)
Definition saved_list_path : string := "/api/v2/mobile/properties/saved".

(** An environment in which the first generated price is 1000015. *)
Definition price_env : Env :=
  {| random_source := fun n => if Nat.eqb n 1 then 15 else 0;
     random_pos := 0;
     uuid_source := fun _ => "00000000000000000000000000000000";
     uuid_pos := 0;
     clock_source := fun _ => 0;
     clock_pos := 0 |}.

(** The state of a process just started in environment [e]. *)
Definition started (e : Env) : World := snd (startup e).

Definition saved_list_request : Request :=
  {| method := GET;
     path := saved_list_path;
     page := None;
     pageSize := None;
     query := None;
     body := no_body |}.

(** An environment whose clock reads 2024-05-01 and whose other
    readings are [0]. *)
Definition clock_env : Env :=
  {| random_source := fun _ => 0;
     random_pos := 0;
     uuid_source := fun _ => "0123456789abcdef0123456789abcdef";
     uuid_pos := 0;
     clock_source := fun _ => days 739006;
     clock_pos := 0 |}.

(** The two seed users of [MOCK_USERS]. *)
Definition test_user : User.t :=
  {| User.id := "user-123";
     User.firstName := "טסט";
     User.lastName := "משתמש";
     User.email := "test@example.com";
     User.phone := Some "+972501234567";
     User.subscriptionTier := "premium";
     User.preferredLocations := ["תל אביב"; "רמת גן"];
     User.createdAt := "2025-01-01T00:00:00Z" |}.

Definition demo_user : User.t :=
  {| User.id := "user-456";
     User.firstName := "דמו";
     User.lastName := "המשתמש";
     User.email := "demo@rq.app";
     User.phone := None;
     User.subscriptionTier := "free";
     User.preferredLocations := [];
     User.createdAt := "2025-01-01T00:00:00Z" |}.

(** The fields the generator draws, with the ranges and vocabularies it
    draws them from. *)
Definition drawn_fields (p : Property.t) : Prop :=
  In (Property.propertyType p) property_types
  /\ In (Address.street (Property.address p)) streets
  /\ In (Address.city (Property.address p)) cities
  /\ (exists n, 1 <= n <= 100 /\ Address.number (Property.address p) = Py.str_of_int n)
  /\ (exists n, 1 <= n <= 10
       /\ Address.neighborhood (Property.address p) = "שכונת " ++ Py.str_of_int n)
  /\ 1000000 <= Property.price p <= 6000000
  /\ 50 <= Property.sizeSqm p <= 150
  /\ Property.pricePerSqm p = Property.price p / Property.sizeSqm p
  /\ In (Property.rooms p) room_counts
  /\ 1 <= Property.floor p <= 15
  /\ 3 <= Property.totalFloors p <= 20
  /\ 40 <= Property.rqScore p <= 95
  /\ In (Property.rqScoreLabel p) score_labels
  /\ Property.lastUpdatedAt p = "2025-01-15T10:30:00Z"
  /\ NoDup (Property.features p)
  /\ (forall tag, In tag (Property.features p) -> In tag feature_tags)
  /\ (length (Property.features p) <= 4)%nat.


(** The items of the answer of [search_properties], when it answers. *)
Definition search_items `{PyLib} (page pageSize : Z) (query : option string) (w : World)
  : list Property.t :=
  match fst (search_properties page pageSize query w) with
  | Py.Ok resp => SearchResponse.items resp
  | _ => []
  end.


(** The outcome of [m] run in [w], whatever it is, and the final state
    satisfy [Q]. *)
Definition post {A} (m : M A) (w : World) (Q : Py.outcome A -> World -> Prop) : Prop :=
  Q (fst (m w)) (snd (m w)).

(** [w'] comes after [w] in a computation that writes neither the store
    nor the clock: same store, same sequence of clock readings. *)
Definition later (w w' : World) : Prop :=
  store w' = store w /\ clock_source (env w') = clock_source (env w).

(** The fields of the detail answer for the stored property [p], with
    the ranges the handler draws them from. *)
Definition detail_fields (property_id : string) (p : Property.t) (full : FullProperty.t)
  : Prop :=
  FullProperty.base full = p
  /\ FullProperty.description full
     = Property.title p ++ ". דירה מרווחת ומוארת ב" ++ Address.city (Property.address p) ++ "."
  /\ Media.images (FullProperty.media full)
     = ["https://picsum.photos/600/400?random=" ++ property_id ++ "-1";
        "https://picsum.photos/600/400?random=" ++ property_id ++ "-2";
        "https://picsum.photos/600/400?random=" ++ property_id ++ "-3"]
  /\ Media.videos (FullProperty.media full) = []
  /\ 0 <= Amenities.parkingSpots (FullProperty.amenities full) <= 2
  /\ 0 <= Amenities.balconySizeSqm (FullProperty.amenities full) <= 20
  /\ Prediction.confidencePct (FullProperty.prediction full) = 80
  /\ Neighborhood.name (FullProperty.neighborhood full)
     = Address.neighborhood (Property.address p)
  /\ Property.price p / Property.sizeSqm p - 5000
     <= Neighborhood.avgPricePerSqm (FullProperty.neighborhood full)
     <= Property.price p / Property.sizeSqm p + 5000
  /\ 70 <= Neighborhood.avgRqScore (FullProperty.neighborhood full) <= 85
  /\ 50 <= Neighborhood.propertiesCount (FullProperty.neighborhood full) <= 200
  /\ 1 <= NeighborhoodAmenities.schools
            (Neighborhood.amenities (FullProperty.neighborhood full)) <= 5
  /\ 1 <= NeighborhoodAmenities.parks
            (Neighborhood.amenities (FullProperty.neighborhood full)) <= 3
  /\ 2 <= NeighborhoodAmenities.transitLines
            (Neighborhood.amenities (FullProperty.neighborhood full)) <= 8
  /\ 1 <= NeighborhoodAmenities.shoppingCenters
            (Neighborhood.amenities (FullProperty.neighborhood full)) <= 4
  /\ List.map Reason.sentiment (FullProperty.reasons full) = ["positive"; "positive"].

(** The fields of the notification made for [i]. *)
Definition notification_fields (i : Z) (n : Notification.t) : Prop :=
  Notification.id n = "notif-" ++ Py.str_of_int i
  /\ In (Notification.type n) ["new_property"; "price_drop"; "rq_change"]
  /\ Notification.title n = "עדכון חדש"
  /\ Notification.body n = "המחיר של נכס שמור ירד ב-2%"
  /\ Notification.readAt n = None
  /\ Notification.savedSearchId n = None
  /\ In (Notification.propertyId n) catalog_ids
  /\ NotificationMetadata.city (Notification.metadata n) = "תל אביב"
  /\ 60 <= NotificationMetadata.rqScore (Notification.metadata n) <= 90
  /\ 1500000 <= NotificationMetadata.price (Notification.metadata n) <= 4000000.

(** The fields of the entry [get_saved_properties] makes for [prop]. *)
Definition saved_fields (prop : Property.t) (s : SavedProperty.t) : Prop :=
  SavedProperty.id s = "saved-" ++ Property.id prop
  /\ SavedProperty.property s = prop
  /\ (exists b, SavedMeta.alertsEnabled (SavedProperty.meta s) = Some b)
  /\ 1 <= SavedMeta.daysSaved (SavedProperty.meta s) <= 30.


(** The state after a sequence of requests, served one after the
    other. *)
Definition serve_all `{PyLib} (reqs : list Request) (w : World) : World :=
  fold_left (fun w req => snd (serve req w)) reqs w.


(** * Properties *)

(** ** The search handler *)

Section Search.
Context `{PyLib}.

(** The handler, computed: it reads the store, never writes it, and its
    only failure is the division by a zero page size. *)
Lemma search_properties_unfold (page pageSize : Z) (query : option string) (w : World) :
  search_properties page pageSize query w =
  let page_size := Z.min pageSize 50 in
  let filtered := filtered_properties query (MOCK_PROPERTIES (store w)) in
  let start := (page - 1) * page_size in
  if page_size =? 0 then (Py.Raised Py.ZeroDivisionError, w)
  else
    (Py.Ok {| SearchResponse.items := Py.slice filtered start (start + page_size);
              SearchResponse.meta :=
                {| Meta.page := page;
                   Meta.pageSize := page_size;
                   Meta.totalPages := Z.of_nat (length filtered) / page_size + 1;
                   Meta.totalItems := Z.of_nat (length filtered) |} |}, w).
Proof.
  unfold search_properties, bind, get_store, lift, ret, Py.floordiv; cbn.
  destruct (Z.min pageSize 50 =? 0); reflexivity.
Qed.

(** The handler returns whenever the page size is not zero. *)
Lemma search_properties_returns (page pageSize : Z) (query : option string) (w : World) :
  pageSize <> 0 ->
  exists resp, search_properties page pageSize query w = (Py.Ok resp, w).
Proof.
  intros Hps. rewrite search_properties_unfold. cbv zeta.
  destruct (Z.min pageSize 50 =? 0) eqn:E; [apply Z.eqb_eq in E; lia|].
  eexists; reflexivity.
Qed.

(** C2 (the code departs from the claim).  With [pageSize = 0] the
    handler does not return a response: the division in [totalPages]
    raises [ZeroDivisionError], for every page and query; served over
    HTTP, the request is answered with status 500. *)
Theorem search_zero_page_size_raises (page : Z) (query : option string) (w : World) :
  search_properties page 0 query w = (Py.Raised Py.ZeroDivisionError, w)
  /\ serve (search_request (Some page) (Some 0) query) w
     = (Handled (call_search_properties page 0 query) (Py.Raised Py.ZeroDivisionError), w)
  /\ status (fst (serve (search_request (Some page) (Some 0) query) w)) = Some 500.
Proof.
  assert (Hh : search_properties page 0 query w = (Py.Raised Py.ZeroDivisionError, w))
    by (rewrite search_properties_unfold; reflexivity).
  assert (Hs : serve (search_request (Some page) (Some 0) query) w
               = (Handled (call_search_properties page 0 query)
                          (Py.Raised Py.ZeroDivisionError), w)).
  { unfold serve. cbn -[search_properties]. unfold returning, bind. rewrite Hh. reflexivity. }
  split; [exact Hh|]. split; [exact Hs|]. rewrite Hs. reflexivity.
Qed.

(** C3. Whenever the handler answers, [meta.totalPages] is
    [floor(totalFiltered / pageSize) + 1] for the clamped page size
    ([Z.div] is the floor of the quotient), and it answers whenever the
    page size is not zero. *)
Theorem search_totalPages (page pageSize : Z) (query : option string) (w : World) :
  (pageSize <> 0 -> exists resp, search_properties page pageSize query w = (Py.Ok resp, w))
  /\ forall resp w',
       search_properties page pageSize query w = (Py.Ok resp, w') ->
       let totalFiltered :=
         Z.of_nat (length (filtered_properties query (MOCK_PROPERTIES (store w)))) in
       Meta.totalPages (SearchResponse.meta resp) = totalFiltered / Z.min pageSize 50 + 1
       /\ Meta.totalItems (SearchResponse.meta resp) = totalFiltered
       /\ Meta.pageSize (SearchResponse.meta resp) = Z.min pageSize 50.
Proof.
  split; [apply search_properties_returns|].
  intros resp w'. rewrite search_properties_unfold. cbv zeta.
  destruct (Z.min pageSize 50 =? 0); [discriminate|].
  intros [= <- _]. cbn. auto.
Qed.

End Search.

(** ** Floats: the forecast expressions never fail on a price below 2^53 *)

Lemma digits2_pos_size (p : positive) : digits2_pos p = Pos.size p.
Proof. induction p; simpl; congruence. Qed.

Lemma Zdigits2_log2 (z : Z) : 0 < z -> Zdigits2 z = Z.log2 z + 1.
Proof.
  destruct z as [|p|p]; try lia. intros _. simpl. rewrite digits2_pos_size.
  destruct p; simpl; lia.
Qed.

Lemma Zdigits2_nonneg (z : Z) : 0 <= z -> 0 <= Zdigits2 z.
Proof. destruct z; simpl; lia. Qed.

Lemma Zdigits2_mono (a b : Z) : 0 <= a <= b -> Zdigits2 a <= Zdigits2 b.
Proof.
  intros [Ha Hab]. destruct (Z.eq_dec a 0) as [->|Hne].
  - apply Zdigits2_nonneg; lia.
  - rewrite !Zdigits2_log2 by lia. pose proof (Z.log2_le_mono a b Hab). lia.
Qed.

Lemma Zdigits2_succ (a : Z) : 0 <= a -> Zdigits2 (a + 1) <= Zdigits2 a + 1.
Proof.
  intros Ha. destruct (Z.eq_dec a 0) as [->|Hne]; [simpl; lia|].
  rewrite !Zdigits2_log2 by lia. pose proof (Z.log2_succ_le a) as Hs.
  rewrite <- Z.add_1_r in Hs. lia.
Qed.

Lemma Zdigits2_mul (a b : Z) : 0 < a -> 0 < b -> Zdigits2 (a * b) <= Zdigits2 a + Zdigits2 b.
Proof.
  intros Ha Hb. rewrite !Zdigits2_log2 by lia.
  pose proof (Z.log2_mul_above a b). lia.
Qed.

Lemma Zdigits2_shift (q k : positive) :
  Zdigits2 (Zpos (Pos.iter xO q k)) = Zdigits2 (Zpos q) + Zpos k.
Proof.
  induction k as [|k IH] using Pos.peano_ind.
  - simpl. lia.
  - rewrite Pos.iter_succ. simpl in *. lia.
Qed.

Lemma iter_pos_invariant {A} (f : A -> A) (P : A -> Prop) :
  (forall x, P x -> P (f x)) -> forall n x, P x -> P (SpecFloat.iter_pos f n x).
Proof.
  intros Hf. induction n as [n IH|n IH|]; intros x Hx; simpl; auto.
Qed.

Lemma shr_1_bounds (m : Z) (r : shr_record) :
  0 <= shr_m r <= m -> 0 <= shr_m (shr_1 r) <= m.
Proof.
  destruct r as [mr b s]; simpl. destruct mr as [|[p|p|]|[p|p|]]; simpl; lia.
Qed.

Lemma shr_fexp_bounds (m e : Z) (l : location) :
  0 <= m ->
  0 <= shr_m (fst (shr_fexp prec emax m e l)) <= m
  /\ (snd (shr_fexp prec emax m e l) = e
      \/ e < snd (shr_fexp prec emax m e l)
         /\ snd (shr_fexp prec emax m e l) = fexp prec emax (Zdigits2 m + e)).
Proof.
  intros Hm. unfold shr_fexp, shr.
  assert (Hrec : shr_m (shr_record_of_loc m l) = m) by (destruct l as [|[]]; reflexivity).
  destruct (fexp prec emax (Zdigits2 m + e) - e) as [|p|p] eqn:E; simpl.
  - rewrite Hrec; split; [lia | left; reflexivity].
  - split.
    + apply (iter_pos_invariant shr_1 (fun r => 0 <= shr_m r <= m)).
      * apply shr_1_bounds.
      * rewrite Hrec; lia.
    + right. lia.
  - rewrite Hrec; split; [lia | left; reflexivity].
Qed.

Lemma round_nearest_even_bounds (m : Z) (l : location) :
  m <= round_nearest_even m l <= m + 1.
Proof. destruct l as [|[]]; simpl; try lia. destruct (Z.even m); lia. Qed.

(** Rounding a positive mantissa of moderate size gives a zero or a
    finite number, with bounds on its exponent and mantissa. *)
Lemma binary_round_aux_finite (sx : bool) (mx ex : Z) :
  0 < mx -> -1074 <= ex -> 2 * Zdigits2 mx + ex <= 971 ->
  binary_round_aux prec emax sx mx ex loc_Exact = S754_zero sx
  \/ exists m e,
       binary_round_aux prec emax sx mx ex loc_Exact = S754_finite sx m e
       /\ ex <= e <= 2 * Zdigits2 mx + ex
       /\ Zdigits2 (Zpos m) <= Zdigits2 mx + 1.
Proof.
  intros Hmx Hex Hsmall. unfold binary_round_aux.
  pose proof (shr_fexp_bounds mx ex loc_Exact ltac:(lia)) as [Hm1 He1].
  destruct (shr_fexp prec emax mx ex loc_Exact) as [mrs' e'] eqn:E1. simpl in Hm1, He1.
  pose proof (round_nearest_even_bounds (shr_m mrs') (loc_of_shr_record mrs')) as Hr.
  set (m1 := round_nearest_even (shr_m mrs') (loc_of_shr_record mrs')) in *.
  pose proof (shr_fexp_bounds m1 e' loc_Exact ltac:(lia)) as [Hm2 He2].
  destruct (shr_fexp prec emax m1 e' loc_Exact) as [mrs'' e''] eqn:E2. simpl in Hm2, He2.
  pose proof (Zdigits2_nonneg mx ltac:(lia)) as Hd0.
  assert (Hd1 : Zdigits2 m1 <= Zdigits2 mx + 1).
  { etransitivity; [apply (Zdigits2_mono m1 (mx + 1)); lia | apply Zdigits2_succ; lia]. }
  pose proof (Zdigits2_nonneg m1 ltac:(lia)) as Hd1'.
  assert (Hfexp : forall x, fexp prec emax x = Z.max (x - 53) (-1074)) by reflexivity.
  rewrite !Hfexp in *.
  assert (He : ex <= e'' <= 2 * Zdigits2 mx + ex) by lia.
  destruct (shr_m mrs'') as [|m|m] eqn:Em; [left; reflexivity | right | lia].
  exists m, e''. replace (e'' <=? emax - prec) with true.
  - split; [reflexivity|]. split; [exact He|].
    etransitivity; [apply (Zdigits2_mono (Zpos m) m1); lia | exact Hd1].
  - symmetry. apply Z.leb_le. change (emax - prec) with 971. lia.
Qed.

Lemma Prim2SF_of_small_int (p : Z) :
  0 < p < 2 ^ 53 ->
  Prim2SF (of_uint63 (of_Z p)) = S754_zero false
  \/ exists m e, Prim2SF (of_uint63 (of_Z p)) = S754_finite false m e
       /\ -52 <= e <= 106 /\ Zdigits2 (Zpos m) <= 54.
Proof.
  intros Hp. rewrite of_uint63_spec, Uint63.of_Z_spec.
  rewrite Z.mod_small by (change wB with (2 ^ 63); lia).
  destruct p as [|q|q]; try lia. unfold binary_normalize, binary_round, shl_align.
  assert (Hd : 1 <= Zpos (digits2_pos q) <= 53).
  { change (Zpos (digits2_pos q)) with (Zdigits2 (Zpos q)).
    rewrite Zdigits2_log2 by lia.
    pose proof (Z.log2_nonneg (Zpos q)).
    assert (Z.log2 (Zpos q) < 53) by (apply Z.log2_lt_pow2; lia). lia. }
  assert (Hfexp : fexp prec emax (Zpos (digits2_pos q) + 0) = Zpos (digits2_pos q) - 53).
  { change (fexp prec emax (Zpos (digits2_pos q) + 0))
      with (Z.max (Zpos (digits2_pos q) + 0 - 53) (-1074)). lia. }
  rewrite Hfexp.
  destruct (Zpos (digits2_pos q) - 53 - 0) as [|k|k] eqn:Ek; try lia.
  - destruct (binary_round_aux_finite false (Zpos q) 0) as [Hz|(m & e & Hr & He & Hm)];
      try lia.
    { change (Zdigits2 (Zpos q)) with (Zpos (digits2_pos q)). lia. }
    + left; exact Hz.
    + right. exists m, e. split; [exact Hr|].
      change (Zdigits2 (Zpos q)) with (Zpos (digits2_pos q)) in *. lia.
  - pose proof (Zdigits2_shift q k) as Hs.
    change (Zdigits2 (Zpos q)) with (Zpos (digits2_pos q)) in Hs.
    destruct (binary_round_aux_finite false (Zpos (Pos.iter xO q k))
                (Zpos (digits2_pos q) - 53)) as [Hz|(m & e & Hr & He & Hm)]; try lia.
    + left; exact Hz.
    + right. exists m, e. split; [exact Hr|]. lia.
Qed.

(** [int(price * factor)] returns for every price below 2^53 and every
    finite positive factor of moderate exponent. *)
Lemma int_of_product_returns (price : Z) (factor : float) (mf : positive) (ef : Z) :
  0 < price < 2 ^ 53 ->
  Prim2SF factor = S754_finite false mf ef ->
  Zdigits2 (Zpos mf) <= 53 -> -1000 <= ef <= 0 ->
  exists z, int_of_product price factor = Py.Ok z.
Proof.
  intros Hp Hf Hmf Hef. unfold int_of_product, Py.mul_int_float, Py.float_of_int.
  replace (Z.abs price <? 2 ^ 53) with true by (symmetry; apply Z.ltb_lt; lia).
  replace (price <? 0) with false by (symmetry; apply Z.ltb_ge; lia).
  replace (Z.abs price) with price by lia. cbv zeta.
  unfold Py.int_of_float. rewrite FloatAxioms.mul_spec, Hf.
  destruct (Prim2SF_of_small_int price Hp) as [-> | (m & e & -> & He & Hm)]; simpl.
  - eexists; reflexivity.
  - destruct (binary_round_aux_finite false (Zpos (m * mf)) (e + ef))
      as [-> | (m' & e' & -> & _)]; try lia.
    + assert (Hd : Zdigits2 (Zpos (m * mf)) <= Zdigits2 (Zpos m) + Zdigits2 (Zpos mf))
        by (apply (Zdigits2_mul (Zpos m) (Zpos mf)); lia).
      cbn [Zdigits2] in *. lia.
    + eexists; reflexivity.
    + eexists; reflexivity.
Qed.

(** ** Slices and substrings *)

(** With bounds that are not negative, a slice is the window between
    them; nothing is raised when the bounds lie beyond the end. *)
Lemma slice_window {A} (l : list A) (start size : Z) :
  0 <= start -> 0 <= size ->
  Py.slice l start (start + size) = window l start (start + size).
Proof.
  intros Hstart Hsize. unfold Py.slice, window, Py.adjust_index.
  replace (start <? 0) with false by (symmetry; apply Z.ltb_ge; lia).
  replace (start + size <? 0) with false by (symmetry; apply Z.ltb_ge; lia).
  replace (start + size - start) with size by lia.
  destruct (Z_lt_le_dec start (Z.of_nat (length l))) as [Hin|Hout].
  - replace (Z.min start (Z.of_nat (length l))) with start by lia.
    assert (Hlen : length (skipn (Z.to_nat start) l) = (length l - Z.to_nat start)%nat)
      by apply length_skipn.
    destruct (Z_le_gt_dec (start + size) (Z.of_nat (length l))) as [Hfull|Hpart].
    + f_equal. lia.
    + rewrite !take_ge by lia. reflexivity.
  - rewrite !drop_ge by lia. rewrite !firstn_nil. reflexivity.
Qed.

Lemma window_length {A} (l : list A) (start size : Z) :
  0 <= start -> 0 <= size ->
  Z.of_nat (length (window l start (start + size))) =
  if start + size <=? Z.of_nat (length l) then size
  else if start <? Z.of_nat (length l) then Z.of_nat (length l) - start
  else 0.
Proof.
  intros Hstart Hsize. unfold window. rewrite length_firstn, length_skipn.
  destruct (start + size <=? Z.of_nat (length l)) eqn:E1;
    [apply Z.leb_le in E1 | apply Z.leb_gt in E1];
    destruct (start <? Z.of_nat (length l)) eqn:E2;
    [apply Z.ltb_lt in E2 | apply Z.ltb_ge in E2 | apply Z.ltb_lt in E2 | apply Z.ltb_ge in E2];
    lia.
Qed.





(** ** Pagination and filtering *)

Section Pagination.
Context `{PyLib}.

(** C4, amended.  For [page >= 1], [pageSize >= 1] and no query the
    handler answers with the window [start, start + page_size) of the
    catalog, [start = (page - 1) * page_size], [page_size = min(pageSize,
    50)]: a full page has [page_size] items, the last page has
    [totalItems - start], and a start at or beyond the end gives an
    empty list, not an error. *)
Theorem search_page_window (page pageSize : Z) (w : World) :
  1 <= page -> 1 <= pageSize ->
  let page_size := Z.min pageSize 50 in
  let start := (page - 1) * page_size in
  let totalItems := Z.of_nat (length (MOCK_PROPERTIES (store w))) in
  exists resp,
    search_properties page pageSize None w = (Py.Ok resp, w)
    /\ SearchResponse.items resp = window (MOCK_PROPERTIES (store w)) start (start + page_size)
    /\ Z.of_nat (length (SearchResponse.items resp)) =
       (if start + page_size <=? totalItems then page_size
        else if start <? totalItems then totalItems - start
        else 0)
    /\ Meta.totalItems (SearchResponse.meta resp) = totalItems.
Proof.
  intros Hpage Hsize page_size start totalItems.
  rewrite search_properties_unfold. cbv zeta. fold page_size. fold start.
  destruct (page_size =? 0) eqn:E; [apply Z.eqb_eq in E; lia|].
  eexists; split; [reflexivity|]. cbn -[window].
  assert (Hstart : 0 <= start) by (unfold start; nia).
  assert (Hps : 0 <= page_size) by lia.
  rewrite slice_window by assumption.
  split; [reflexivity|]. split; [|reflexivity].
  apply window_length; assumption.
Qed.

(** C10.  A search whose query parameter is the empty string is
    answered as a search with no query parameter: nothing is filtered
    out, and the answer is the page of the whole property list.  For
    every page size other than 0 the items are the slice
    [[start : start + page_size]] of [MOCK_PROPERTIES] and [meta]
    counts the whole list; for [page >= 1] and [pageSize >= 1] that
    slice is the window [start, start + page_size) of the list.  (With
    a page size of 0 both searches raise [ZeroDivisionError].) *)
Theorem search_empty_query_is_no_query (page pageSize : Z) (w : World) :
  let page_size := Z.min pageSize 50 in
  let start := (page - 1) * page_size in
  let properties := MOCK_PROPERTIES (store w) in
  let totalItems := Z.of_nat (length properties) in
  search_properties page pageSize (Some "") w = search_properties page pageSize None w
  /\ filtered_properties (Some "") properties = properties
  /\ (pageSize <> 0 ->
      search_properties page pageSize (Some "") w
      = (Py.Ok {| SearchResponse.items := Py.slice properties start (start + page_size);
                  SearchResponse.meta :=
                    {| Meta.page := page;
                       Meta.pageSize := page_size;
                       Meta.totalPages := totalItems / page_size + 1;
                       Meta.totalItems := totalItems |} |}, w))
  /\ (1 <= page -> 1 <= pageSize ->
      exists resp,
        search_properties page pageSize (Some "") w = (Py.Ok resp, w)
        /\ SearchResponse.items resp = window properties start (start + page_size)
        /\ Z.of_nat (length (SearchResponse.items resp)) =
           (if start + page_size <=? totalItems then page_size
            else if start <? totalItems then totalItems - start
            else 0)
        /\ Meta.totalItems (SearchResponse.meta resp) = totalItems
        /\ Meta.totalPages (SearchResponse.meta resp) = totalItems / page_size + 1)
  /\ (pageSize = 0 ->
      search_properties page pageSize (Some "") w = (Py.Raised Py.ZeroDivisionError, w)).
Proof.
  intros page_size start properties totalItems.
  assert (Hgen : pageSize <> 0 ->
            search_properties page pageSize (Some "") w
            = (Py.Ok {| SearchResponse.items := Py.slice properties start (start + page_size);
                        SearchResponse.meta :=
                          {| Meta.page := page;
                             Meta.pageSize := page_size;
                             Meta.totalPages := totalItems / page_size + 1;
                             Meta.totalItems := totalItems |} |}, w)).
  { intros Hps. rewrite search_properties_unfold. cbv zeta. fold page_size.
    destruct (page_size =? 0) eqn:E; [apply Z.eqb_eq in E; unfold page_size in E; lia|].
    reflexivity. }
  split; [rewrite !search_properties_unfold; reflexivity|].
  split; [reflexivity|]. split; [exact Hgen|]. split.
  - intros Hpage Hsize. eexists. split; [apply Hgen; lia|].
    cbn [SearchResponse.items SearchResponse.meta Meta.totalItems Meta.totalPages].
    assert (Hstart : 0 <= start) by (unfold start, page_size; nia).
    assert (Hps : 0 <= page_size) by (unfold page_size; lia).
    rewrite slice_window by assumption.
    split; [reflexivity|]. split; [apply window_length; assumption|].
    split; reflexivity.
  - intros ->. rewrite search_properties_unfold. reflexivity.
Qed.


End Pagination.

(** ** Reasoning about handler bodies *)

Lemma wp_ret {A} (a : A) (w : World) (Q : A -> World -> Prop) :
  Q a w -> wp (ret a) w Q.
Proof. intros HQ. exists a, w. split; [reflexivity | exact HQ]. Qed.

Lemma wp_bind {A B} (m : M A) (k : A -> M B) (w : World) (Q : B -> World -> Prop) :
  wp m w (fun a w1 => wp (k a) w1 Q) -> wp (bind m k) w Q.
Proof.
  intros (a & w1 & Hm & b & w2 & Hk & HQ). exists b, w2.
  split; [|exact HQ]. unfold bind. rewrite Hm. exact Hk.
Qed.

Lemma wp_lift {A} (o : Py.outcome A) (a : A) (w : World) (Q : A -> World -> Prop) :
  o = Py.Ok a -> Q a w -> wp (lift o) w Q.
Proof. intros -> HQ. exists a, w. split; [reflexivity | exact HQ]. Qed.

Lemma wp_get_store (w : World) (Q : Store -> World -> Prop) :
  Q (store w) w -> wp get_store w Q.
Proof. intros HQ. exists (store w), w. split; [reflexivity | exact HQ]. Qed.

Lemma wp_put_store (s : Store) (w : World) (Q : unit -> World -> Prop) :
  Q tt {| store := s; env := env w |} -> wp (put_store s) w Q.
Proof. intros HQ. eexists tt, _. split; [reflexivity | exact HQ]. Qed.

(** The readings of the environment leave the store as it is. *)
Lemma wp_random_draw (w : World) (Q : Z -> World -> Prop) :
  (forall d e, Q d {| store := store w; env := e |}) -> wp random_draw w Q.
Proof. intros HQ. eexists _, _. split; [reflexivity | apply HQ]. Qed.

Lemma wp_randint (a b : Z) (w : World) (Q : Z -> World -> Prop) :
  a <= b ->
  (forall v e, a <= v <= b -> Q v {| store := store w; env := e |}) ->
  wp (randint a b) w Q.
Proof.
  intros Hab HQ. unfold randint.
  replace (b <? a) with false by (symmetry; apply Z.ltb_ge; lia).
  apply wp_bind, wp_random_draw. intros d e. apply wp_ret, HQ.
  pose proof (Z.mod_pos_bound d (b - a + 1)). lia.
Qed.

Lemma wp_choice {A} (l : list A) (w : World) (Q : A -> World -> Prop) :
  l <> [] ->
  (forall v e, In v l -> Q v {| store := store w; env := e |}) ->
  wp (choice l) w Q.
Proof.
  intros Hne HQ. destruct l as [|x l]; [congruence|]. unfold choice.
  apply wp_bind, wp_random_draw. intros d e. apply wp_ret, HQ.
  apply nth_In.
  pose proof (Z.mod_pos_bound d (Z.of_nat (length (x :: l)))). simpl length in *. lia.
Qed.

Lemma wp_random (w : World) (Q : float -> World -> Prop) :
  (forall r e, Q r {| store := store w; env := e |}) -> wp random w Q.
Proof.
  intros HQ. unfold random. apply wp_bind, wp_random_draw. intros d e. apply wp_ret, HQ.
Qed.

Lemma wp_sample_from {A} (k : nat) (pool : list A) (w : World) (Q : list A -> World -> Prop) :
  (k <= length pool)%nat ->
  (forall v e, Q v {| store := store w; env := e |}) ->
  (forall v, Q v w) ->
  wp (sample_from pool k) w Q.
Proof.
  revert pool w Q. induction k as [|k IH]; intros pool w Q Hk HQ HQ0; simpl.
  - apply wp_ret, HQ0.
  - destruct pool as [|x pool]; [simpl in Hk; lia|].
    apply wp_bind, wp_random_draw. intros d e. cbv zeta.
    apply wp_bind, IH.
    + rewrite length_delete.
      * simpl in *. lia.
      * apply lookup_lt_is_Some.
        pose proof (Z.mod_pos_bound d (Z.of_nat (length (x :: pool)))).
        simpl length in *. lia.
    + intros v e'. apply wp_ret, HQ.
    + intros v. apply wp_ret, HQ.
Qed.

Lemma wp_sample {A} (population : list A) (k : Z) (w : World) (Q : list A -> World -> Prop) :
  0 <= k <= Z.of_nat (length population) ->
  (forall v e, Q v {| store := store w; env := e |}) ->
  wp (sample population k) w Q.
Proof.
  intros Hk HQ. unfold sample.
  replace ((k <? 0) || (Z.of_nat (length population) <? k)) with false.
  - apply wp_sample_from; [lia | exact HQ |].
    intros v. destruct w as [s e]. apply HQ.
  - symmetry. apply orb_false_iff. split; [apply Z.ltb_ge | apply Z.ltb_ge]; lia.
Qed.

Lemma wp_uuid4_hex (w : World) (Q : string -> World -> Prop) :
  (forall h e, Q h {| store := store w; env := e |}) -> wp uuid4_hex w Q.
Proof. intros HQ. eexists _, _. split; [reflexivity | apply HQ]. Qed.

Lemma wp_utcnow (w : World) (Q : Z -> World -> Prop) :
  (forall t e, 0 <= t < datetime_span -> Q t {| store := store w; env := e |}) ->
  wp utcnow w Q.
Proof.
  intros HQ. eexists _, _. split; [reflexivity | apply HQ].
  apply Z.mod_pos_bound. reflexivity.
Qed.

Ltac wp_next :=
  lazymatch goal with
  | |- wp (ret _) _ _ => apply wp_ret
  | |- wp (bind _ _) _ _ =>
      apply wp_bind;
      first
        [ apply wp_randint; [lia | intros ? ? ?]
        | apply wp_choice; [discriminate | intros ? ? ?]
        | apply wp_random; intros ? ?
        | apply wp_uuid4_hex; intros ? ?
        | apply wp_get_store ]
  end;
  cbn [store env].

(** ** The generator *)

Lemma room_counts_int (rooms : Py.num) :
  In rooms room_counts -> exists n, In n [1; 2; 3; 4; 5] /\ Py.int rooms = Py.Ok n.
Proof.
  unfold room_counts. simpl.
  intros [<-|[<-|[<-|[<-|[<-|[<-|[<-|[]]]]]]]];
    [exists 1 | exists 2 | exists 2 | exists 3 | exists 3 | exists 4 | exists 5];
    (split; [simpl; tauto | reflexivity]).
Qed.

Lemma floordiv_ok (a b : Z) : b <> 0 -> Py.floordiv a b = Py.Ok (a / b).
Proof.
  intros Hb. unfold Py.floordiv. destruct (b =? 0) eqn:E; [apply Z.eqb_eq in E; lia|].
  reflexivity.
Qed.

(** One iteration of the generator returns, whatever the generator
    behind [random] yields, with a property of the expected shape, and
    does not touch the store. *)
Lemma generate_property_spec (i : Z) (w : World) :
  wp (generate_property i) w (fun p w' => store w' = store w /\ generated i p).
Proof.
  unfold generate_property.
  wp_next. rename v into city, H into Hcity.
  wp_next. rename v into price, H into Hprice.
  wp_next. rename v into size, H into Hsize.
  wp_next. rename v into rooms, H into Hrooms.
  destruct (room_counts_int rooms Hrooms) as (n & Hn & Hint).
  apply wp_bind, (wp_lift _ n); [exact Hint|].
  do 4 wp_next. do 2 wp_next.
  apply wp_bind, (wp_lift _ (price / size)); [apply floordiv_ok; lia|].
  do 4 wp_next. wp_next. rename v5 into k, H4 into Hk.
  apply wp_bind, wp_sample; [simpl; lia|]. intros features e'.
  apply wp_ret. cbn [store]. split; [reflexivity|].
  unfold generated; cbn. repeat split; try lia; try assumption.
  exists n. split; [exact Hn | reflexivity].
Qed.

Lemma wp_mono {A} (m : M A) (w : World) (Q Q' : A -> World -> Prop) :
  wp m w Q -> (forall a w', Q a w' -> Q' a w') -> wp m w Q'.
Proof. intros (a & w' & Hm & HQ) Himp. exists a, w'. auto. Qed.

(** The loop appends one generated property per index, in order, and
    leaves the users alone. *)
Lemma generate_loop_spec (l : list Z) (w : World) :
  wp (for_each l (fun i => prop <- generate_property i ;; append_property prop)%py) w
     (fun _ w' =>
        MOCK_USERS (store w') = MOCK_USERS (store w)
        /\ exists ps, MOCK_PROPERTIES (store w') = (MOCK_PROPERTIES (store w) ++ ps)%list
                      /\ Forall2 generated l ps).
Proof.
  revert w. induction l as [|i l IH]; intros w; cbn [for_each].
  - apply wp_ret. split; [reflexivity|]. exists []. rewrite app_nil_r. auto.
  - apply wp_bind, wp_bind.
    apply (wp_mono _ _ _ _ (generate_property_spec i w)). intros p w1 [Hs Hp].
    unfold append_property. apply wp_bind, wp_get_store, wp_put_store.
    apply (wp_mono _ _ _ _ (IH _)). cbn [store MOCK_USERS MOCK_PROPERTIES].
    intros _ w2 (Hu & ps & Hps & Hall). rewrite Hs in *.
    split; [exact Hu|]. exists (p :: ps). rewrite Hps, <- app_assoc. auto.
Qed.

(** Loading the module succeeds in every environment; afterwards the
    users are the two seed users and the catalog holds the properties
    generated for 1 .. 50, in this order. *)
Lemma startup_spec (e : Env) :
  fst (startup e) = Py.Ok tt
  /\ MOCK_USERS (store (snd (startup e))) = seed_users
  /\ Forall2 generated (seqZ 1 50) (catalog e).
Proof.
  unfold catalog, startup, generate_mock_properties.
  destruct (generate_loop_spec (seqZ 1 50) {| store := initial_store; env := e |})
    as ([] & w' & -> & Hu & ps & Hps & Hall).
  cbn [fst snd store initial_store MOCK_USERS MOCK_PROPERTIES] in *.
  rewrite Hps. auto.
Qed.

Lemma generated_ids (l : list Z) (ps : list Property.t) :
  Forall2 generated l ps ->
  List.map Property.id ps = List.map (fun i => "property-" ++ Py.str_of_int i) l.
Proof.
  induction 1 as [|i p l ps Hp _ IH]; [reflexivity|].
  cbn [List.map]. rewrite IH. destruct Hp as [-> _]. reflexivity.
Qed.

Lemma catalog_ids_spec (e : Env) : List.map Property.id (catalog e) = catalog_ids.
Proof. apply generated_ids, startup_spec. Qed.

Lemma catalog_length (e : Env) : length (catalog e) = 50%nat.
Proof.
  rewrite <- (length_map Property.id), catalog_ids_spec. reflexivity.
Qed.

Lemma catalog_generated (e : Env) (p : Property.t) :
  In p (catalog e) -> exists i, generated i p.
Proof.
  intros Hp. destruct (startup_spec e) as (_ & _ & Hall).
  revert Hp. generalize (seqZ 1 50) Hall. generalize (catalog e).
  induction 1 as [|i q l ps Hq _ IH]; intros [].
  - subst q. exists i. exact Hq.
  - auto.
Qed.

Lemma started_catalog (e : Env) : MOCK_PROPERTIES (store (started e)) = catalog e.
Proof. reflexivity. Qed.

Lemma catalog_ids_NoDup : NoDup catalog_ids.
Proof. apply (bool_decide_unpack (NoDup catalog_ids)). vm_compute. exact I. Qed.

Lemma saved_not_an_id : ~ In "saved" catalog_ids.
Proof.
  rewrite <- list_elem_of_In.
  apply (bool_decide_unpack ("saved" ∉ catalog_ids)). vm_compute. exact I.
Qed.

(** ** Lookup by id *)

Lemma find_property_none (ps : list Property.t) (x : string) :
  ~ In x (List.map Property.id ps) -> find_property ps x = None.
Proof.
  unfold find_property. induction ps as [|p ps IH]; [reflexivity|].
  cbn [List.map List.find In]. intros Hx.
  destruct (String.eqb (Property.id p) x) eqn:E.
  - apply String.eqb_eq in E. tauto.
  - apply IH. tauto.
Qed.

Lemma find_property_some (ps : list Property.t) (p : Property.t) :
  NoDup (List.map Property.id ps) -> In p ps ->
  find_property ps (Property.id p) = Some p.
Proof.
  unfold find_property. induction ps as [|q ps IH]; [intros _ []|].
  cbn [List.map List.find In]. intros Hnd Hp.
  apply NoDup_cons in Hnd as [Hq Hnd]. rewrite list_elem_of_In in Hq.
  destruct Hp as [->|Hp].
  - rewrite String.eqb_refl. reflexivity.
  - destruct (String.eqb (Property.id q) (Property.id p)) eqn:E.
    + apply String.eqb_eq in E. exfalso. apply Hq. rewrite E. apply in_map, Hp.
    + auto.
Qed.

Lemma find_property_found (ps : list Property.t) (x : string) (p : Property.t) :
  find_property ps x = Some p -> In p ps /\ Property.id p = x.
Proof.
  unfold find_property. intros Hf. apply find_some in Hf as [Hin E].
  apply String.eqb_eq in E. auto.
Qed.

(** ** Which computations write the store *)

Lemma keeps_ret {A} (a : A) : keeps_store (ret a).
Proof. intros w. reflexivity. Qed.

Lemma keeps_lift {A} (o : Py.outcome A) : keeps_store (lift o).
Proof. intros w. reflexivity. Qed.

Lemma keeps_raise {A} (e : Py.exn) : keeps_store (@raise A e).
Proof. intros w. reflexivity. Qed.

Lemma keeps_raise_http {A} (c : Z) (e m : string) : keeps_store (@raise_http A c e m).
Proof. intros w. reflexivity. Qed.

Lemma keeps_bind {A B} (m : M A) (k : A -> M B) :
  keeps_store m -> (forall a, keeps_store (k a)) -> keeps_store (bind m k).
Proof.
  intros Hm Hk w. unfold bind. specialize (Hm w).
  destruct (m w) as [[a|c e msg|e] w1]; cbn [snd] in *; [|assumption..].
  rewrite Hk. exact Hm.
Qed.

Lemma keeps_get_store : keeps_store get_store.
Proof. intros w. reflexivity. Qed.

Lemma keeps_random_draw : keeps_store random_draw.
Proof. intros w. reflexivity. Qed.

Lemma keeps_uuid4_hex : keeps_store uuid4_hex.
Proof. intros w. reflexivity. Qed.

Lemma keeps_utcnow : keeps_store utcnow.
Proof. intros w. reflexivity. Qed.

Create HintDb keeps discriminated.
#[local] Hint Resolve keeps_ret keeps_lift keeps_raise keeps_raise_http keeps_get_store
  keeps_random_draw keeps_uuid4_hex keeps_utcnow : keeps.

(** Splits a handler body along its binds and branches. *)
Ltac keeps :=
  repeat
    first
      [ progress intros
      | apply keeps_bind
      | match goal with
        | |- keeps_store (match ?x with _ => _ end) => destruct x
        | |- keeps_store (let _ := _ in _) => cbv zeta
        end
      | solve [auto with keeps] ].

Lemma keeps_randint (a b : Z) : keeps_store (randint a b).
Proof. unfold randint. keeps. Qed.

Lemma keeps_choice {A} (l : list A) : keeps_store (choice l).
Proof. unfold choice. keeps. Qed.

Lemma keeps_random : keeps_store random.
Proof. unfold random. keeps. Qed.

Lemma keeps_uniform (a b : float) : keeps_store (uniform a b).
Proof. unfold uniform. pose proof keeps_random. keeps. Qed.

Lemma keeps_datetime_add (d delta : Z) : keeps_store (datetime_add d delta).
Proof. unfold datetime_add. keeps. Qed.

Lemma keeps_datetime_sub (d delta : Z) : keeps_store (datetime_sub d delta).
Proof. apply keeps_datetime_add. Qed.

#[local] Hint Resolve keeps_randint keeps_choice keeps_random keeps_uniform
  keeps_datetime_add keeps_datetime_sub : keeps.

Lemma keeps_map_m {A B} (f : A -> M B) (l : list A) :
  (forall a, keeps_store (f a)) -> keeps_store (map_m f l).
Proof. intros Hf. induction l as [|x l IH]; cbn [map_m]; keeps. Qed.

Lemma keeps_subscript (d : gmap string User.t) (key : string) :
  keeps_store (subscript d key).
Proof. unfold subscript. keeps. Qed.

Lemma keeps_generate_tokens (user_id : string) : keeps_store (generate_tokens user_id).
Proof. unfold generate_tokens. keeps. Qed.

#[local] Hint Resolve keeps_subscript keeps_generate_tokens : keeps.

Section ReadOnlyHandlers.
Context `{PyLib}.

Lemma keeps_login (payload : LoginRequest.t) : keeps_store (login payload).
Proof. unfold login. keeps. Qed.

Lemma keeps_search_properties (page pageSize : Z) (query : option string) :
  keeps_store (search_properties page pageSize query).
Proof. unfold search_properties. keeps. Qed.

Lemma keeps_get_property (property_id : string) : keeps_store (get_property property_id).
Proof. unfold get_property. keeps. Qed.

Lemma keeps_saved_entry (prop : Property.t) : keeps_store (saved_entry prop).
Proof. unfold saved_entry. keeps. Qed.

Lemma keeps_get_saved_properties : keeps_store get_saved_properties.
Proof. unfold get_saved_properties. keeps. apply keeps_map_m, keeps_saved_entry. Qed.

Lemma keeps_save_property (payload : SavePropertyRequest.t) :
  keeps_store (save_property payload).
Proof. unfold save_property. keeps. Qed.

Lemma keeps_get_profile : keeps_store get_profile.
Proof. unfold get_profile. keeps. Qed.

Lemma keeps_get_subscription : keeps_store get_subscription.
Proof. unfold get_subscription. keeps. Qed.

Lemma keeps_notification (i : Z) : keeps_store (notification i).
Proof. unfold notification. keeps. Qed.

Lemma keeps_get_notifications (page pageSize : Z) :
  keeps_store (get_notifications page pageSize).
Proof. unfold get_notifications. keeps. apply keeps_map_m, keeps_notification. Qed.

Lemma keeps_verify_receipt (payload : ReceiptVerifyRequest.t) :
  keeps_store (verify_receipt payload).
Proof. unfold verify_receipt. keeps. Qed.

Lemma keeps_returning {A} (wrap : A -> Response) (m : M A) :
  keeps_store m -> keeps_store (returning wrap m).
Proof. intros Hm. unfold returning. keeps. Qed.

End ReadOnlyHandlers.

(** ** Registration and login *)

Section Auth.
Context `{PyLib}.

(** What [register] does, by whether the email is a key of the store. *)
Lemma register_spec (payload : RegisterRequest.t) (w : World) :
  let users := MOCK_USERS (store w) in
  let email := RegisterRequest.email payload in
  (forall u, users !! email = Some u ->
     register payload w = (Py.HTTPException 409 "conflict" "Email already exists", w))
  /\ (users !! email = None ->
      exists user tokens e',
        register payload w =
          (Py.Ok {| AuthResponse.user := user; AuthResponse.tokens := tokens |},
           {| store := {| MOCK_USERS := <[email := user]> users;
                          MOCK_PROPERTIES := MOCK_PROPERTIES (store w) |};
              env := e' |})
        /\ user =
           {| User.id := "user-" ++ Py.str_take 8 (uuid_source (env w) (uuid_pos (env w)));
              User.firstName := RegisterRequest.firstName payload;
              User.lastName := RegisterRequest.lastName payload;
              User.email := email;
              User.phone := RegisterRequest.phone payload;
              User.subscriptionTier := "free";
              User.preferredLocations := [];
              User.createdAt :=
                isoformat (clock_source (env w) (clock_pos (env w)) mod datetime_span)
                ++ "Z" |}
        /\ Tokens.expiresIn tokens = 3600).
Proof.
  cbv zeta. unfold register, bind, get_store, contains. cbn [fst snd].
  destruct (MOCK_USERS (store w) !! RegisterRequest.email payload) as [u|] eqn:E.
  - split; [reflexivity | discriminate].
  - split; [discriminate|]. intros _. cbn. eexists _, _, _.
    split; [reflexivity|]. split; reflexivity.
Qed.

(** C7.  [register] fails with 409 conflict exactly when the email is
    already a key of the user store.  Otherwise it returns [{user,
    tokens}] and the store gains that user under the email: tier "free",
    no preferred locations, id and timestamp assigned by the server;
    registering the same email again then fails with conflict. *)
Theorem register_conflict_iff_email_taken (payload : RegisterRequest.t) (w : World) :
  let users := MOCK_USERS (store w) in
  let email := RegisterRequest.email payload in
  (fst (register payload w) = Py.HTTPException 409 "conflict" "Email already exists"
   <-> is_Some (users !! email))
  /\ (is_Some (users !! email) -> snd (register payload w) = w)
  /\ (users !! email = None ->
      exists r w',
        register payload w = (Py.Ok r, w')
        /\ MOCK_USERS (store w') = <[email := AuthResponse.user r]> users
        /\ MOCK_PROPERTIES (store w') = MOCK_PROPERTIES (store w)
        /\ User.email (AuthResponse.user r) = email
        /\ User.firstName (AuthResponse.user r) = RegisterRequest.firstName payload
        /\ User.lastName (AuthResponse.user r) = RegisterRequest.lastName payload
        /\ User.phone (AuthResponse.user r) = RegisterRequest.phone payload
        /\ User.subscriptionTier (AuthResponse.user r) = "free"
        /\ User.preferredLocations (AuthResponse.user r) = []
        /\ User.id (AuthResponse.user r)
           = "user-" ++ Py.str_take 8 (uuid_source (env w) (uuid_pos (env w)))
        /\ User.createdAt (AuthResponse.user r)
           = isoformat (clock_source (env w) (clock_pos (env w)) mod datetime_span) ++ "Z"
        /\ forall again,
             RegisterRequest.email again = email ->
             register again w'
             = (Py.HTTPException 409 "conflict" "Email already exists", w')).
Proof.
  cbv zeta. destruct (register_spec payload w) as [Htaken Hfree]. cbv zeta in *.
  destruct (MOCK_USERS (store w) !! RegisterRequest.email payload) as [u|] eqn:E.
  - rewrite (Htaken u eq_refl). cbn [fst snd].
    split; [split; eauto|]. split; [reflexivity | discriminate].
  - destruct (Hfree eq_refl) as (user & tokens & e' & Hr & Hu & _).
    rewrite Hr. cbn [fst snd].
    split; [split; [discriminate | intros [? ?]; discriminate]|].
    split; [intros [? ?]; discriminate|]. intros _.
    eexists _, _. split; [reflexivity|].
    cbn [store MOCK_USERS MOCK_PROPERTIES AuthResponse.user].
    split; [reflexivity|]. split; [reflexivity|].
    rewrite Hu. cbn. repeat (split; [reflexivity|]). rewrite <- Hu.
    intros again Hagain.
    destruct (register_spec again
                {| store := {| MOCK_USERS := <[RegisterRequest.email payload := user]>
                                               (MOCK_USERS (store w));
                               MOCK_PROPERTIES := MOCK_PROPERTIES (store w) |};
                   env := e' |}) as [Htaken' _].
    cbv zeta in Htaken'. cbn [store MOCK_USERS] in Htaken'.
    apply (Htaken' user). rewrite Hagain. apply lookup_insert_eq.
Qed.

(** What [login] does, by whether the credentials are accepted. *)
Lemma login_spec (payload : LoginRequest.t) (w : World) :
  let users := MOCK_USERS (store w) in
  let email := LoginRequest.email payload in
  let password := LoginRequest.password payload in
  match users !! email with
  | Some u =>
      if accepted_password password then
        exists tokens e',
          login payload w =
            (Py.Ok {| AuthResponse.user := u; AuthResponse.tokens := tokens |},
             {| store := store w; env := e' |})
          /\ Tokens.expiresIn tokens = 3600
      else login payload w = (Py.HTTPException 401 "unauthorized" "Invalid credentials", w)
  | None => login payload w = (Py.HTTPException 401 "unauthorized" "Invalid credentials", w)
  end.
Proof.
  cbv zeta. unfold login, bind, get_store, contains, subscript. cbn [fst snd].
  destruct (MOCK_USERS (store w) !! LoginRequest.email payload) as [u|] eqn:E;
    [|reflexivity].
  destruct (accepted_password (LoginRequest.password payload)); [|reflexivity].
  cbn. eexists _, _. split; reflexivity.
Qed.

Lemma accepted_password_spec (password : string) :
  accepted_password password = true <-> password = "password123" \/ password = "demo123".
Proof. unfold accepted_password. rewrite orb_true_iff, !String.eqb_eq. reflexivity. Qed.

(** C6.  [login] succeeds, returning the stored user and tokens, if and
    only if the email is a key of the user store and the password is
    "password123" or "demo123"; in every other case it fails with 401
    unauthorized.  The store is left as it is. *)
Theorem login_iff_known_email_and_magic_password (payload : LoginRequest.t) (w : World) :
  let users := MOCK_USERS (store w) in
  let email := LoginRequest.email payload in
  let password := LoginRequest.password payload in
  let accepted :=
    is_Some (users !! email) /\ (password = "password123" \/ password = "demo123") in
  ((exists r w', login payload w = (Py.Ok r, w')) <-> accepted)
  /\ (accepted ->
      exists r w',
        login payload w = (Py.Ok r, w')
        /\ users !! email = Some (AuthResponse.user r)
        /\ store w' = store w)
  /\ (~ accepted ->
      login payload w = (Py.HTTPException 401 "unauthorized" "Invalid credentials", w)).
Proof.
  cbv zeta. pose proof (login_spec payload w) as Hl. cbv zeta in Hl.
  pose proof (accepted_password_spec (LoginRequest.password payload)) as Hp.
  destruct (MOCK_USERS (store w) !! LoginRequest.email payload) as [u|] eqn:E.
  - destruct (accepted_password (LoginRequest.password payload)) eqn:Ea.
    + destruct Hl as (tokens & e' & Hl & _).
      assert (Hacc : is_Some (Some u)
                     /\ (LoginRequest.password payload = "password123"
                         \/ LoginRequest.password payload = "demo123"))
        by (split; [eauto | apply Hp; reflexivity]).
      split; [split; [intros _; exact Hacc | intros _; eauto]|].
      split; [intros _; eexists _, _; split; [exact Hl | split; reflexivity]|].
      intros Hn. tauto.
    + assert (Hrej : ~ (is_Some (Some u)
                        /\ (LoginRequest.password payload = "password123"
                            \/ LoginRequest.password payload = "demo123")))
        by (intros [_ Hpw]; apply Hp in Hpw; discriminate).
      split; [split; [intros (r & w' & Hr); rewrite Hl in Hr; discriminate | tauto]|].
      split; [tauto | intros _; exact Hl].
  - assert (Hrej : ~ (is_Some (@None User.t)
                      /\ (LoginRequest.password payload = "password123"
                          \/ LoginRequest.password payload = "demo123")))
      by (intros [[? ?] _]; discriminate).
    split; [split; [intros (r & w' & Hr); rewrite Hl in Hr; discriminate | tauto]|].
    split; [tauto | intros _; exact Hl].
Qed.

End Auth.

(** ** The catalog is read-only *)

Section ReadOnlyCatalog.
Context `{PyLib}.

(** A handler call leaves the store as it is, or it is a successful
    registration and the store gains the new user. *)
Lemma run_store (c : Call) (w : World) :
  store (snd (run c w)) = store w
  \/ exists payload r,
       c = call_register payload
       /\ fst (run c w) = Py.Ok (AuthBody r)
       /\ MOCK_USERS (store w) !! RegisterRequest.email payload = None
       /\ store (snd (run c w))
          = {| MOCK_USERS :=
                 <[RegisterRequest.email payload := AuthResponse.user r]>
                   (MOCK_USERS (store w));
               MOCK_PROPERTIES := MOCK_PROPERTIES (store w) |}.
Proof.
  destruct c as [|payload| | | | | | | | | | | | | |]; cbn [run];
    try (left; apply keeps_returning;
         first [ apply keeps_login | apply keeps_search_properties
               | apply keeps_get_property | apply keeps_get_saved_properties
               | apply keeps_save_property | apply keeps_get_profile
               | apply keeps_get_subscription | apply keeps_get_notifications
               | apply keeps_verify_receipt
               | solve [ unfold health_ping, refresh_token, logout, verify_device,
                           delete_saved_property, mark_notification_read;
                         auto with keeps ] ]).
  destruct (register_spec payload w) as [Htaken Hfree]. cbv zeta in *.
  unfold returning, bind.
  destruct (MOCK_USERS (store w) !! RegisterRequest.email payload) as [u|] eqn:E.
  - left. rewrite (Htaken u eq_refl). reflexivity.
  - right. destruct (Hfree eq_refl) as (user & tokens & e' & Hr & _). rewrite Hr.
    eexists payload, _. cbn. auto.
Qed.

Lemma run_properties (c : Call) (w : World) :
  MOCK_PROPERTIES (store (snd (run c w))) = MOCK_PROPERTIES (store w).
Proof.
  destruct (run_store c w) as [-> | (payload & r & _ & _ & _ & ->)]; reflexivity.
Qed.

Lemma serve_properties (req : Request) (w : World) :
  MOCK_PROPERTIES (store (snd (serve req w))) = MOCK_PROPERTIES (store w).
Proof.
  unfold serve. destruct (route routes (method req) (path req)); try reflexivity.
  destruct (bind_arguments ep path_params req) as [c|]; try reflexivity.
  pose proof (run_properties c w) as Hc. destruct (run c w). exact Hc.
Qed.

(** In every state of a running process the property list is the
    catalog generated when the module was loaded. *)
Lemma reachable_catalog (w : World) :
  reachable w -> exists e, MOCK_PROPERTIES (store w) = catalog e.
Proof.
  induction 1 as [e | req w _ [e IH]].
  - exists e. reflexivity.
  - exists e. rewrite serve_properties. exact IH.
Qed.

(** C9.  No handler call changes the property list; a call leaves the
    whole store as it is unless it is a successful registration, which
    inserts the new user under the submitted email.  So every request
    leaves the property list alone, and in every state of a running
    process it is the list generated at start-up. *)
Theorem catalog_never_mutated (c : Call) (w : World) :
  let w' := snd (run c w) in
  MOCK_PROPERTIES (store w') = MOCK_PROPERTIES (store w)
  /\ (store w' = store w
      \/ exists payload r,
           c = call_register payload
           /\ fst (run c w) = Py.Ok (AuthBody r)
           /\ MOCK_USERS (store w) !! RegisterRequest.email payload = None
           /\ MOCK_USERS (store w')
              = <[RegisterRequest.email payload := AuthResponse.user r]>
                  (MOCK_USERS (store w)))
  /\ (forall req, MOCK_PROPERTIES (store (snd (serve req w))) = MOCK_PROPERTIES (store w))
  /\ (reachable w -> exists e, MOCK_PROPERTIES (store w) = catalog e).
Proof.
  cbv zeta. split; [apply run_properties|]. split.
  - destruct (run_store c w) as [Hs | (payload & r & Hc & Hr & Hfree & Hs)].
    + left; exact Hs.
    + right. exists payload, r. rewrite Hs. auto.
  - split; [intros req; apply serve_properties | apply reachable_catalog].
Qed.

(** ** The detail handler and the saved-properties route *)

Lemma get_property_not_found (property_id : string) (w : World) :
  find_property (MOCK_PROPERTIES (store w)) property_id = None ->
  get_property property_id w
  = (Py.HTTPException 404 "not_found" "Property not found", w).
Proof.
  intros Hnone. unfold get_property, bind, get_store. cbn [fst snd]. rewrite Hnone.
  reflexivity.
Qed.

(** C1 (the code departs from the claim).  In every state of a running
    process a GET request to [properties/saved] is not routed to
    [get_saved_properties]: the route of [get_property], declared
    before it, matches the path with [property_id = "saved"], and as no
    property has this id the answer is 404 not_found, with no items. *)
Theorem saved_list_request_answers_not_found (req : Request) (w : World) :
  reachable w ->
  method req = GET ->
  path req = saved_list_path ->
  serve req w
  = (Handled (call_get_property "saved")
             (Py.HTTPException 404 "not_found" "Property not found"), w)
  /\ status (fst (serve req w)) = Some 404.
Proof.
  intros Hw Hm Hp.
  assert (Hs : serve req w
               = (Handled (call_get_property "saved")
                    (Py.HTTPException 404 "not_found" "Property not found"), w)).
  { unfold serve. rewrite Hm, Hp.
    change (route routes GET saved_list_path)
      with (FullMatch ep_get_property [("property_id", "saved")]).
    cbn [bind_arguments]. change (path_param "property_id" [("property_id", "saved")])
      with "saved".
    cbn [run]. unfold returning, bind. rewrite get_property_not_found; [reflexivity|].
    apply find_property_none. destruct (reachable_catalog w Hw) as [e ->].
    rewrite catalog_ids_spec. apply saved_not_an_id. }
  split; [exact Hs|]. rewrite Hs. reflexivity.
Qed.

End ReadOnlyCatalog.

Lemma forecasts_return (price : Z) :
  0 < price < 2 ^ 53 ->
  exists z12 z24 z60,
    int_of_product price 1.05 = Py.Ok z12
    /\ int_of_product price 1.08 = Py.Ok z24
    /\ int_of_product price 1.15 = Py.Ok z60.
Proof.
  intros Hp.
  destruct (int_of_product_returns price 1.05 4728779608739021 (-52) Hp eq_refl)
    as [z12 H12]; [simpl; lia | lia |].
  destruct (int_of_product_returns price 1.08 4863887597560136 (-52) Hp eq_refl)
    as [z24 H24]; [simpl; lia | lia |].
  destruct (int_of_product_returns price 1.15 5179139571476070 (-52) Hp eq_refl)
    as [z60 H60]; [simpl; lia | lia |].
  eauto 10.
Qed.

(** The detail handler on a stored property with a price below 2^53
    and a size that is not zero: it returns the stored fields with the
    detail fields, the forecasts being the truncated products. *)
Lemma get_property_found (property_id : string) (p : Property.t) (w : World) :
  find_property (MOCK_PROPERTIES (store w)) property_id = Some p ->
  0 < Property.price p < 2 ^ 53 ->
  Property.sizeSqm p <> 0 ->
  wp (get_property property_id) w
     (fun full w' =>
        store w' = store w
        /\ FullProperty.base full = p
        /\ int_of_product (Property.price p) 1.05
           = Py.Ok (Prediction.forecast12Months (FullProperty.prediction full))
        /\ int_of_product (Property.price p) 1.08
           = Py.Ok (Prediction.forecast24Months (FullProperty.prediction full))
        /\ int_of_product (Property.price p) 1.15
           = Py.Ok (Prediction.forecast60Months (FullProperty.prediction full))).
Proof.
  intros Hfind Hprice Hsize.
  destruct (forecasts_return _ Hprice) as (z12 & z24 & z60 & H12 & H24 & H60).
  unfold get_property. apply wp_bind, wp_get_store. rewrite Hfind. cbv zeta.
  do 8 wp_next.
  pose proof H12 as H12'. pose proof H24 as H24'. pose proof H60 as H60'.
  unfold int_of_product in H12', H24', H60'.
  destruct (Py.mul_int_float (Property.price p) 1.05) as [x12| |] eqn:E12; try discriminate.
  destruct (Py.mul_int_float (Property.price p) 1.08) as [x24| |] eqn:E24; try discriminate.
  destruct (Py.mul_int_float (Property.price p) 1.15) as [x60| |] eqn:E60; try discriminate.
  apply wp_bind, (wp_lift _ x12); [reflexivity|].
  apply wp_bind, (wp_lift _ z12); [exact H12'|].
  apply wp_bind, (wp_lift _ x24); [reflexivity|].
  apply wp_bind, (wp_lift _ z24); [exact H24'|].
  apply wp_bind, (wp_lift _ x60); [reflexivity|].
  apply wp_bind, (wp_lift _ z60); [exact H60'|].
  apply wp_bind, (wp_lift _ (Property.price p / Property.sizeSqm p));
    [apply floordiv_ok; exact Hsize|].
  do 7 wp_next. wp_next. cbn. auto.
Qed.

Section Detail.
Context `{PyLib}.

(** C5, amended.  In every state of a running process, for every id of
    the catalog the detail handler returns the stored property with
    that id, and [prediction.forecast12Months] is [int(price * 1.05)],
    the floating-point product truncated towards zero (likewise 1.08
    and 1.15 for 24 and 60 months); for every other id it fails with
    404 not_found. *)
Theorem get_property_forecast_truncates (property_id : string) (w : World) :
  reachable w ->
  (In property_id (List.map Property.id (MOCK_PROPERTIES (store w))) ->
   exists p full w',
     In p (MOCK_PROPERTIES (store w))
     /\ Property.id p = property_id
     /\ get_property property_id w = (Py.Ok full, w')
     /\ FullProperty.base full = p
     /\ int_of_product (Property.price p) 1.05
        = Py.Ok (Prediction.forecast12Months (FullProperty.prediction full))
     /\ int_of_product (Property.price p) 1.08
        = Py.Ok (Prediction.forecast24Months (FullProperty.prediction full))
     /\ int_of_product (Property.price p) 1.15
        = Py.Ok (Prediction.forecast60Months (FullProperty.prediction full)))
  /\ (~ In property_id (List.map Property.id (MOCK_PROPERTIES (store w))) ->
      get_property property_id w
      = (Py.HTTPException 404 "not_found" "Property not found", w)).
Proof.
  intros Hw. destruct (reachable_catalog w Hw) as [e He]. split.
  - intros Hin. apply in_map_iff in Hin as (p & Hid & Hp).
    assert (Hfind : find_property (MOCK_PROPERTIES (store w)) property_id = Some p).
    { rewrite <- Hid. apply find_property_some; [|exact Hp].
      rewrite He, catalog_ids_spec. apply catalog_ids_NoDup. }
    rewrite He in Hp. destruct (catalog_generated e p Hp) as (i & _ & Hprice & Hsize & _).
    destruct (get_property_found property_id p w Hfind)
      as (full & w' & Hrun & _ & Hbase & H12 & H24 & H60); [lia | lia |].
    exists p, full, w'. rewrite He. auto 10.
  - intros Hout. apply get_property_not_found, find_property_none, Hout.
Qed.

End Detail.

(** ** The saved-properties handler, called directly *)

Lemma bind_ok_inv {A B} (m : M A) (k : A -> M B) (w w' : World) (b : B) :
  bind m k w = (Py.Ok b, w') ->
  exists a w1, m w = (Py.Ok a, w1) /\ k a w1 = (Py.Ok b, w').
Proof.
  unfold bind. destruct (m w) as [[a|c e msg|e] w1]; try discriminate. eauto.
Qed.

Lemma map_m_ok_inv {A B} (f : A -> M B) (l : list A) (w w' : World) (ys : list B) :
  map_m f l w = (Py.Ok ys, w') ->
  Forall2 (fun x y => exists w1 w2, f x w1 = (Py.Ok y, w2)) l ys.
Proof.
  revert w w' ys. induction l as [|x l IH]; intros w w' ys; cbn [map_m].
  - intros [= <- _]. constructor.
  - intros Hb. apply bind_ok_inv in Hb as (y & w1 & Hy & Hb).
    apply bind_ok_inv in Hb as (ys' & w2 & Hys & Hb). injection Hb as <- _.
    constructor; [eauto | eapply IH, Hys].
Qed.

Section SavedHandler.
Context `{PyLib}.

Lemma saved_entry_ok_inv (prop : Property.t) (w w' : World) (s : SavedProperty.t) :
  saved_entry prop w = (Py.Ok s, w') ->
  SavedProperty.property s = prop
  /\ SavedProperty.id s = "saved-" ++ Property.id prop.
Proof.
  unfold saved_entry. intros Hb.
  repeat (apply bind_ok_inv in Hb as (? & ? & _ & Hb)).
  injection Hb as <- _. split; reflexivity.
Qed.

(** Whenever [get_saved_properties] itself returns, its items are one
    entry per property among the first five of the store, in order,
    each with id [saved-<propertyId>] and that property. *)
Lemma get_saved_properties_entries (w w' : World) (items : list SavedProperty.t) :
  get_saved_properties w = (Py.Ok items, w') ->
  Forall2 (fun prop s =>
             SavedProperty.property s = prop
             /\ SavedProperty.id s = "saved-" ++ Property.id prop)
          (firstn 5 (MOCK_PROPERTIES (store w))) items.
Proof.
  unfold get_saved_properties. intros Hb.
  apply bind_ok_inv in Hb as (st & w1 & [= <- <-] & Hb).
  apply map_m_ok_inv in Hb.
  change (Py.slice (MOCK_PROPERTIES (store w)) 0 5)
    with (Py.slice (MOCK_PROPERTIES (store w)) 0 (0 + 5)) in Hb.
  rewrite slice_window in Hb by lia. unfold window in Hb. cbn [Z.to_nat skipn] in Hb.
  change (Z.to_nat (0 + 5 - 0)) with 5%nat in Hb.
  eapply Forall2_impl; [exact Hb|].
  intros prop s (w1 & w2 & Hs). eapply saved_entry_ok_inv, Hs.
Qed.

End SavedHandler.

(** ** Concrete runs *)

(** The handler behind the shadowed route does return five entries. *)
Example get_saved_properties_direct :
  match fst (@get_saved_properties example_lib (started clock_env)) with
  | Py.Ok items =>
      List.map SavedProperty.id items
      = ["saved-property-1"; "saved-property-2"; "saved-property-3";
         "saved-property-4"; "saved-property-5"]
  | _ => False
  end.
Proof. vm_compute. reflexivity. Qed.

Example search_default_page :
  match fst (@search_properties example_lib 1 20 None (started zero_env)) with
  | Py.Ok resp =>
      length (SearchResponse.items resp) = 20%nat
      /\ Meta.totalItems (SearchResponse.meta resp) = 50
      /\ Meta.totalPages (SearchResponse.meta resp) = 3
  | _ => False
  end.
Proof. vm_compute. auto. Qed.

Example search_city_query :
  match fst (@search_properties example_lib 1 50 (Some "חיפה") (started price_env)) with
  | Py.Ok resp => Meta.totalItems (SearchResponse.meta resp) = 0
  | _ => False
  end.
Proof. vm_compute. reflexivity. Qed.

Example login_seed_user :
  match fst (login
               (LoginRequest.mk "test@example.com" "password123") (started zero_env)) with
  | Py.Ok r => User.id (AuthResponse.user r) = "user-123"
  | _ => False
  end.
Proof. vm_compute. reflexivity. Qed.

Example login_wrong_password :
  fst (login (LoginRequest.mk "test@example.com" "wrongpass") (started zero_env))
  = Py.HTTPException 401 "unauthorized" "Invalid credentials".
Proof. vm_compute. reflexivity. Qed.

Example login_unknown_email :
  fst (login (LoginRequest.mk "nobody@x.com" "password123") (started zero_env))
  = Py.HTTPException 401 "unauthorized" "Invalid credentials".
Proof. vm_compute. reflexivity. Qed.

Example register_twice :
  let payload := RegisterRequest.mk "A" "B" "new@x.com" "pw" None in
  let (first, w1) := @register example_lib payload (started clock_env) in
  match first with
  | Py.Ok r =>
      User.id (AuthResponse.user r) = "user-01234567"
      /\ fst (@register example_lib payload w1)
         = Py.HTTPException 409 "conflict" "Email already exists"
  | _ => False
  end.
Proof. vm_compute. auto. Qed.

Example saved_list_post_reaches_save_property :
  route routes POST saved_list_path = FullMatch ep_save_property [].
Proof. reflexivity. Qed.

Example search_route :
  route routes GET "/api/v2/mobile/properties/search" = FullMatch ep_search_properties [].
Proof. reflexivity. Qed.

(** A line feed after a path that ends in a literal segment: the route
    still matches. *)
Example health_ping_route_line_feed :
  route routes GET ("/health/ping" ++ newline) = FullMatch ep_health_ping [].
Proof. reflexivity. Qed.

Example search_route_line_feed :
  route routes GET ("/api/v2/mobile/properties/search" ++ newline)
  = FullMatch ep_search_properties [].
Proof. reflexivity. Qed.

Example detail_route_line_feed :
  route routes GET ("/api/v2/mobile/properties/property-1" ++ newline)
  = FullMatch ep_get_property [("property_id", "property-1" ++ newline)].
Proof. reflexivity. Qed.

Example two_line_feeds_no_route :
  route routes GET ("/health/ping" ++ newline ++ newline) = NoMatch.
Proof. reflexivity. Qed.

Example slice_negative_stop : Py.slice [1; 2; 3; 4] 0 (-1) = [1; 2; 3].
Proof. reflexivity. Qed.

Example truncated_product : int_of_product 1000015 1.05 = Py.Ok 1050015.
Proof. vm_compute. reflexivity. Qed.

Example rounded_product : round_of_product 1000015 1.05 = Py.Ok 1050016.
Proof. vm_compute. reflexivity. Qed.

(** ** Witnesses and counterexamples *)

(** C1: a GET of [properties/saved] right after start-up is answered
    404. *)
Lemma saved_list_request_witness :
  status (fst (@serve example_lib saved_list_request (started zero_env))) = Some 404.
Proof.
  apply (@saved_list_request_answers_not_found example_lib).
  - apply reachable_startup.
  - reflexivity.
  - reflexivity.
Defined.

(** C3: 50 items with a page size of 50 give two pages. *)
Lemma search_totalPages_witness :
  exists resp,
    @search_properties example_lib 1 50 None (started zero_env)
    = (Py.Ok resp, started zero_env)
    /\ Meta.totalItems (SearchResponse.meta resp) = 50
    /\ Meta.totalPages (SearchResponse.meta resp) = 2.
Proof.
  destruct (@search_totalPages example_lib 1 50 None (started zero_env)) as [Hret Hpages].
  destruct (Hret ltac:(lia)) as [resp Hresp]. exists resp.
  split; [exact Hresp|].
  destruct (Hpages resp _ Hresp) as (Hp & Hi & _). rewrite Hp, Hi.
  split; vm_compute; reflexivity.
Defined.

(** C4: the third page of 20 holds the last 10 of the 50 items. *)
Lemma search_page_window_witness :
  exists resp,
    @search_properties example_lib 3 20 None (started zero_env)
    = (Py.Ok resp, started zero_env)
    /\ Z.of_nat (length (SearchResponse.items resp)) = 10.
Proof.
  destruct (@search_page_window example_lib 3 20 (started zero_env) ltac:(lia) ltac:(lia))
    as (resp & Hresp & _ & Hlen & _).
  exists resp. split; [exact Hresp|]. rewrite Hlen. vm_compute. reflexivity.
Defined.

(** C4 as stated fails for a negative page size: with [page = 1] and
    [pageSize = -1] the handler answers with 49 of the 50 items, which
    is neither [min(pageSize, 50) = -1], nor [totalItems - start = 50],
    nor the empty window [0, -1). *)
Lemma search_negative_page_size_counterexample :
  exists resp,
    @search_properties example_lib 1 (-1) None (started zero_env)
    = (Py.Ok resp, started zero_env)
    /\ length (SearchResponse.items resp) = 49%nat
    /\ Meta.totalItems (SearchResponse.meta resp) = 50
    /\ Z.min (-1) 50 = -1
    /\ SearchResponse.items resp
       <> window (MOCK_PROPERTIES (store (started zero_env))) 0 (0 + Z.min (-1) 50).
Proof.
  eexists. split; [rewrite search_properties_unfold; reflexivity|].
  split; [vm_compute; reflexivity|]. split; [vm_compute; reflexivity|].
  split; [reflexivity|].
  intros Heq. apply (f_equal (@length _)) in Heq. vm_compute in Heq. discriminate.
Qed.

(** C5: the detail of [property-1] in a process whose first price is
    1000015. *)
Lemma get_property_forecast_witness :
  exists full w',
    get_property "property-1" (started price_env) = (Py.Ok full, w')
    /\ int_of_product (Property.price (FullProperty.base full)) 1.05
       = Py.Ok (Prediction.forecast12Months (FullProperty.prediction full)).
Proof.
  assert (Hmem : In "property-1"
                   (List.map Property.id (MOCK_PROPERTIES (store (started price_env))))).
  { rewrite started_catalog, catalog_ids_spec. vm_compute. left. reflexivity. }
  destruct (@get_property_forecast_truncates example_lib "property-1" (started price_env)
              (reachable_startup price_env)) as [Hin _].
  destruct (Hin Hmem) as (p & full & w' & _ & _ & Hrun & Hbase & H12 & _).
  exists full, w'. rewrite Hbase. auto.
Defined.

(** C5 as stated fails: for the price 1000015 the product is
    1050015.75; the handler's forecast is 1050015, the truncation,
    while rounding gives 1050016. *)
Lemma forecast_not_rounded_counterexample :
  match fst (get_property "property-1" (started price_env)) with
  | Py.Ok full =>
      Property.price (FullProperty.base full) = 1000015
      /\ Prediction.forecast12Months (FullProperty.prediction full) = 1050015
      /\ round_of_product (Property.price (FullProperty.base full)) 1.05 = Py.Ok 1050016
      /\ round_of_product (Property.price (FullProperty.base full)) 1.05
         <> Py.Ok (Prediction.forecast12Months (FullProperty.prediction full))
  | _ => False
  end.
Proof. vm_compute. repeat split; discriminate. Qed.


(** * Further properties of the program *)

(** ** The generated catalog *)

(** X1.  Loading the module never fails, whatever [random] yields:
    afterwards the users are the two seed users and the catalog holds
    exactly 50 properties whose ids are [property-1] .. [property-50],
    in this order and without repetition. *)
Theorem startup_builds_fifty_properties (e : Env) :
  fst (startup e) = Py.Ok tt
  /\ MOCK_USERS (store (started e)) = seed_users
  /\ length (catalog e) = 50%nat
  /\ List.map Property.id (catalog e) = catalog_ids
  /\ NoDup (List.map Property.id (catalog e))
  /\ forall i, 1 <= i <= 50 ->
       exists p, catalog e !! Z.to_nat (i - 1) = Some p
                 /\ Property.id p = "property-" ++ Py.str_of_int i.
Proof.
  destruct (startup_spec e) as (Hok & Husers & Hall).
  split; [exact Hok|]. split; [exact Husers|]. split; [apply catalog_length|].
  split; [apply catalog_ids_spec|]. split; [rewrite catalog_ids_spec; apply catalog_ids_NoDup|].
  intros i Hi.
  destruct (Forall2_lookup_l _ _ _ (Z.to_nat (i - 1)) i Hall) as (p & Hp & Hg).
  { apply lookup_seqZ. lia. }
  exists p. split; [exact Hp | apply Hg].
Qed.

Lemma delete_NoDup {A} (l : list A) (j : nat) (y : A) :
  NoDup l -> l !! j = Some y ->
  NoDup (delete j l) /\ forall z, In z (delete j l) -> In z l /\ z <> y.
Proof.
  intros Hnd Hj. rewrite delete_take_drop.
  rewrite <- (take_drop_middle l j y Hj) in Hnd.
  apply NoDup_app in Hnd as (Ht & Hsep & Hd). apply NoDup_cons in Hd as [Hy Hd].
  split.
  - apply NoDup_app. split; [exact Ht|]. split; [|exact Hd].
    intros z Hz Hz'. apply (Hsep z Hz). right. exact Hz'.
  - intros z Hz. rewrite <- list_elem_of_In in Hz. apply elem_of_app in Hz.
    rewrite <- (take_drop_middle l j y Hj) at 1. rewrite <- list_elem_of_In.
    split.
    + apply elem_of_app. destruct Hz as [Hz|Hz]; [left; exact Hz | right; right; exact Hz].
    + intros ->. destruct Hz as [Hz|Hz]; [|exact (Hy Hz)].
      apply (Hsep y Hz). left.
Qed.

(** [random.sample] of a population without repetition: [k] distinct
    elements of the population. *)
Lemma wp_sample_from_distinct {A} (k : nat) (pool : list A) (w : World)
    (Q : list A -> World -> Prop) :
  NoDup pool -> (k <= length pool)%nat ->
  (forall v e, NoDup v -> (forall x, In x v -> In x pool) -> length v = k ->
               Q v {| store := store w; env := e |}) ->
  wp (sample_from pool k) w Q.
Proof.
  revert pool w Q. induction k as [|k IH]; intros pool w Q Hnd Hk HQ; simpl.
  - apply wp_ret. destruct w as [s e]. apply HQ; [constructor | intros x [] | reflexivity].
  - destruct pool as [|x pool]; [simpl in Hk; lia|].
    apply wp_bind, wp_random_draw. intros d e. cbv zeta.
    set (j := Z.to_nat (d mod Z.of_nat (length (x :: pool)))).
    assert (Hj : (j < length (x :: pool))%nat).
    { pose proof (Z.mod_pos_bound d (Z.of_nat (length (x :: pool)))).
      unfold j. simpl length in *. lia. }
    destruct (lookup_lt_is_Some_2 (x :: pool) j Hj) as [y Hy].
    rewrite (nth_lookup_Some _ _ x _ Hy).
    destruct (delete_NoDup (x :: pool) j y Hnd Hy) as [Hnd' Hsub].
    apply wp_bind, IH; [exact Hnd' | |].
    + rewrite length_delete by eauto. simpl in *. lia.
    + intros v e' Hv Hin Hlen. apply wp_ret, HQ.
      * apply NoDup_cons. split; [|exact Hv].
        rewrite list_elem_of_In. intros Hyv. destruct (Hsub y (Hin y Hyv)) as [_ Hne].
        congruence.
      * intros z [<-|Hz].
        -- rewrite <- list_elem_of_In. eapply list_elem_of_lookup_2, Hy.
        -- apply (Hsub z (Hin z Hz)).
      * simpl. congruence.
Qed.

Lemma wp_sample_distinct {A} (population : list A) (k : Z) (w : World)
    (Q : list A -> World -> Prop) :
  NoDup population ->
  0 <= k <= Z.of_nat (length population) ->
  (forall v e, NoDup v -> (forall x, In x v -> In x population) ->
               Z.of_nat (length v) = k -> Q v {| store := store w; env := e |}) ->
  wp (sample population k) w Q.
Proof.
  intros Hnd Hk HQ. unfold sample.
  replace ((k <? 0) || (Z.of_nat (length population) <? k)) with false.
  - apply wp_sample_from_distinct; [exact Hnd | lia |].
    intros v e Hv Hin Hlen. apply HQ; [exact Hv | exact Hin | lia].
  - symmetry. apply orb_false_iff. split; [apply Z.ltb_ge | apply Z.ltb_ge]; lia.
Qed.

Lemma feature_tags_NoDup : NoDup feature_tags.
Proof. apply (bool_decide_unpack (NoDup feature_tags)). vm_compute. exact I. Qed.

(** One iteration of the generator: every drawn field lies in its
    range or vocabulary, and the feature tags are distinct. *)
Lemma generate_property_fields (i : Z) (w : World) :
  wp (generate_property i) w (fun p w' => store w' = store w /\ drawn_fields p).
Proof.
  unfold generate_property.
  wp_next. rename v into city, H into Hcity.
  wp_next. rename v into price, H into Hprice.
  wp_next. rename v into size, H into Hsize.
  wp_next. rename v into rooms, H into Hrooms.
  destruct (room_counts_int rooms Hrooms) as (n & Hn & Hint).
  apply wp_bind, (wp_lift _ n); [exact Hint|].
  wp_next. rename v into propertyType, H into Htype.
  wp_next. rename v into street, H into Hstreet.
  wp_next. rename v into number, H into Hnumber.
  wp_next. rename v into neighborhood, H into Hneighborhood.
  do 2 wp_next.
  apply wp_bind, (wp_lift _ (price / size)); [apply floordiv_ok; lia|].
  wp_next. rename v into floor, H into Hfloor.
  wp_next. rename v into totalFloors, H into Htotal.
  wp_next. rename v into rqScore, H into Hscore.
  wp_next. rename v into label, H into Hlabel.
  wp_next. rename v into k, H into Hk.
  apply wp_bind, wp_sample_distinct; [apply feature_tags_NoDup | simpl; lia |].
  intros features e' Hnd Hsub Hlen.
  apply wp_ret. cbn [store]. split; [reflexivity|].
  unfold drawn_fields; cbn.
  repeat (split; [first [assumption | lia | reflexivity | eauto]|]). lia.
Qed.

(** The loop of the generator, for any property of its iterations. *)
Lemma generate_loop_post (P : Z -> Property.t -> Prop) (l : list Z) (w : World) :
  (forall i w, wp (generate_property i) w (fun p w' => store w' = store w /\ P i p)) ->
  wp (for_each l (fun i => prop <- generate_property i ;; append_property prop)%py) w
     (fun _ w' =>
        exists ps, MOCK_PROPERTIES (store w') = (MOCK_PROPERTIES (store w) ++ ps)%list
                   /\ Forall2 P l ps).
Proof.
  intros Hgen. revert w. induction l as [|i l IH]; intros w; cbn [for_each].
  - apply wp_ret. exists []. rewrite app_nil_r. auto.
  - apply wp_bind, wp_bind.
    apply (wp_mono _ _ _ _ (Hgen i w)). intros p w1 [Hs Hp].
    unfold append_property. apply wp_bind, wp_get_store, wp_put_store.
    apply (wp_mono _ _ _ _ (IH _)). cbn [store MOCK_USERS MOCK_PROPERTIES].
    intros _ w2 (ps & Hps & Hall). rewrite Hs in *.
    exists (p :: ps). rewrite Hps, <- app_assoc. auto.
Qed.

(** X2.  Every property of the catalog has its drawn fields in the
    ranges and vocabularies of the generator, whatever [random] yields:
    price in [1000000, 6000000], size in [50, 150], price per square
    metre the floor quotient of the two (so between 6666 and 120000),
    floor in [1, 15], total floors in [3, 20], score in [40, 95], type,
    street, city, rooms and label from their lists, and at most 4
    feature tags, distinct and from the tag list. *)
Theorem catalog_fields_in_range (e : Env) :
  Forall (fun p => drawn_fields p /\ 6666 <= Property.pricePerSqm p <= 120000) (catalog e).
Proof.
  unfold catalog, startup, generate_mock_properties.
  destruct (generate_loop_post (fun _ => drawn_fields) (seqZ 1 50)
              {| store := initial_store; env := e |}
              (fun i w => generate_property_fields i w))
    as ([] & w' & -> & ps & Hps & Hall).
  cbn [fst snd store initial_store MOCK_USERS MOCK_PROPERTIES] in *. rewrite Hps.
  clear Hps. induction Hall as [|i p l ps Hp _ IH]; constructor; [|exact IH].
  split; [exact Hp|].
  destruct Hp as (_ & _ & _ & _ & _ & Hprice & Hsize & -> & _).
  split.
  - apply Z.div_le_lower_bound; lia.
  - apply Z.div_le_upper_bound; lia.
Qed.

(** ** The user store *)

Lemma seed_users_test : seed_users !! "test@example.com" = Some test_user.
Proof.
  unfold seed_users. rewrite lookup_insert_ne by discriminate.
  apply lookup_insert_eq.
Qed.

Lemma seed_users_demo : seed_users !! "demo@rq.app" = Some demo_user.
Proof. unfold seed_users. apply lookup_insert_eq. Qed.

Section Users.
Context `{PyLib}.

Lemma run_users (c : Call) (w : World) :
  MOCK_USERS (store w) ⊆ MOCK_USERS (store (snd (run c w))).
Proof.
  destruct (run_store c w) as [-> | (payload & r & _ & _ & Hfree & ->)]; [reflexivity|].
  cbn [MOCK_USERS]. apply insert_subseteq, Hfree.
Qed.

Lemma serve_users (req : Request) (w : World) :
  MOCK_USERS (store w) ⊆ MOCK_USERS (store (snd (serve req w))).
Proof.
  unfold serve. destruct (route routes (method req) (path req)); try reflexivity.
  destruct (bind_arguments ep path_params req) as [c|]; try reflexivity.
  pose proof (run_users c w) as Hc. destruct (run c w). exact Hc.
Qed.

Lemma reachable_seed_users (w : World) : reachable w -> seed_users ⊆ MOCK_USERS (store w).
Proof.
  induction 1 as [e | req w _ IH].
  - destruct (startup_spec e) as (_ & -> & _). reflexivity.
  - etransitivity; [exact IH | apply serve_users].
Qed.

(** X3.  No request removes or changes a user: whatever the request,
    and whatever the sequence of requests, every email of the user
    store is still a key afterwards, with the same user.  The store
    only grows, by the registrations. *)
Theorem users_are_never_removed (req : Request) (reqs : list Request) (w : World) :
  MOCK_USERS (store w) ⊆ MOCK_USERS (store (snd (serve req w)))
  /\ MOCK_USERS (store w) ⊆ MOCK_USERS (store (serve_all reqs w))
  /\ forall email u,
       MOCK_USERS (store w) !! email = Some u ->
       MOCK_USERS (store (serve_all reqs w)) !! email = Some u.
Proof.
  assert (Hall : MOCK_USERS (store w) ⊆ MOCK_USERS (store (serve_all reqs w))).
  { unfold serve_all. revert w. induction reqs as [|r reqs IH]; intros w; cbn [fold_left].
    - reflexivity.
    - etransitivity; [apply (serve_users r) | apply IH]. }
  split; [apply serve_users|]. split; [exact Hall|].
  intros email u Hu. eapply lookup_weaken; [exact Hu | exact Hall].
Qed.

(** X4.  In every state of a running process the two seed accounts are
    in the user store as the module defines them.  So [get_profile]
    never raises [KeyError]: it returns the user of
    [test@example.com], and changes nothing; and a registration with
    the email of a seed account is always refused with 409 conflict. *)
Theorem seed_accounts_persist (w : World) :
  reachable w ->
  MOCK_USERS (store w) !! "test@example.com" = Some test_user
  /\ MOCK_USERS (store w) !! "demo@rq.app" = Some demo_user
  /\ get_profile w = (Py.Ok test_user, w)
  /\ forall payload,
       RegisterRequest.email payload = "test@example.com"
       \/ RegisterRequest.email payload = "demo@rq.app" ->
       register payload w = (Py.HTTPException 409 "conflict" "Email already exists", w).
Proof.
  intros Hw. pose proof (reachable_seed_users w Hw) as Hsub.
  assert (Ht : MOCK_USERS (store w) !! "test@example.com" = Some test_user)
    by (eapply lookup_weaken; [apply seed_users_test | exact Hsub]).
  assert (Hd : MOCK_USERS (store w) !! "demo@rq.app" = Some demo_user)
    by (eapply lookup_weaken; [apply seed_users_demo | exact Hsub]).
  split; [exact Ht|]. split; [exact Hd|]. split.
  - unfold get_profile, bind, get_store, subscript. cbn [fst snd]. rewrite Ht. reflexivity.
  - intros payload Hemail. destruct (register_spec payload w) as [Htaken _].
    cbv zeta in Htaken.
    destruct Hemail as [He|He]; rewrite He in Htaken; eauto.
Qed.

(** X5.  Registration followed by login.  After a registration with a
    fresh email, a login with that email succeeds exactly when the
    password is one of the two accepted literals, and then returns the
    registered user; the password given at registration is not kept, so
    logging in with it is refused with 401 unless it is one of the two
    literals. *)
Theorem register_then_login (payload : RegisterRequest.t) (w : World) :
  MOCK_USERS (store w) !! RegisterRequest.email payload = None ->
  exists r w',
    register payload w = (Py.Ok r, w')
    /\ (forall password,
          password = "password123" \/ password = "demo123" ->
          exists r' w'',
            login {| LoginRequest.email := RegisterRequest.email payload;
                     LoginRequest.password := password |} w' = (Py.Ok r', w'')
            /\ AuthResponse.user r' = AuthResponse.user r
            /\ store w'' = store w')
    /\ (forall password,
          password <> "password123" -> password <> "demo123" ->
          login {| LoginRequest.email := RegisterRequest.email payload;
                   LoginRequest.password := password |} w'
          = (Py.HTTPException 401 "unauthorized" "Invalid credentials", w'))
    /\ (RegisterRequest.password payload <> "password123" ->
        RegisterRequest.password payload <> "demo123" ->
        login {| LoginRequest.email := RegisterRequest.email payload;
                 LoginRequest.password := RegisterRequest.password payload |} w'
        = (Py.HTTPException 401 "unauthorized" "Invalid credentials", w')).
Proof.
  intros Hfree. destruct (register_spec payload w) as [_ Hreg]. cbv zeta in Hreg.
  destruct (Hreg Hfree) as (user & tokens & e' & Hr & _).
  eexists _, _. split; [exact Hr|]. cbn [AuthResponse.user].
  assert (Hlogin : forall password,
            let lp := {| LoginRequest.email := RegisterRequest.email payload;
                         LoginRequest.password := password |} in
            let w' := {| store := {| MOCK_USERS := <[RegisterRequest.email payload := user]>
                                                     (MOCK_USERS (store w));
                                     MOCK_PROPERTIES := MOCK_PROPERTIES (store w) |};
                         env := e' |} in
            if accepted_password password then
              exists tokens' e'',
                login lp w'
                = (Py.Ok {| AuthResponse.user := user; AuthResponse.tokens := tokens' |},
                   {| store := store w'; env := e'' |})
            else login lp w'
                 = (Py.HTTPException 401 "unauthorized" "Invalid credentials", w')).
  { intros password lp w'. pose proof (login_spec lp w') as Hl. cbv zeta in Hl.
    unfold lp, w' in Hl. cbn [store MOCK_USERS LoginRequest.email LoginRequest.password] in Hl.
    rewrite lookup_insert_eq in Hl.
    destruct (accepted_password password); [|exact Hl].
    destruct Hl as (tokens' & e'' & Hl & _). eauto. }
  assert (Hrej : forall password,
            password <> "password123" -> password <> "demo123" ->
            accepted_password password = false).
  { intros password H1 H2. destruct (accepted_password password) eqn:E; [|reflexivity].
    apply accepted_password_spec in E. tauto. }
  split; [|split].
  - intros password Hpw. apply accepted_password_spec in Hpw.
    specialize (Hlogin password). cbv zeta in Hlogin. rewrite Hpw in Hlogin.
    destruct Hlogin as (tokens' & e'' & Hl). eexists _, _. split; [exact Hl|].
    split; reflexivity.
  - intros password H1 H2. specialize (Hlogin password). cbv zeta in Hlogin.
    rewrite (Hrej password H1 H2) in Hlogin. exact Hlogin.
  - intros H1 H2. specialize (Hlogin (RegisterRequest.password payload)).
    cbv zeta in Hlogin. rewrite (Hrej _ H1 H2) in Hlogin. exact Hlogin.
Qed.

End Users.

(** ** Saving a property *)

Section Saving.
Context `{PyLib}.

(** X6.  In every state of a running process, [save_property] with
    the id of a catalog property answers with the entry
    [saved-<propertyId>] holding the stored property, the payload's
    [alertsEnabled], no last change and zero days saved; with any other
    id it fails with 404 not_found.  Either way the store is left as it
    is: nothing is recorded as saved. *)
Theorem save_property_answers_without_saving (payload : SavePropertyRequest.t) (w : World) :
  reachable w ->
  let property_id := SavePropertyRequest.propertyId payload in
  (In property_id catalog_ids ->
   exists p e',
     In p (MOCK_PROPERTIES (store w))
     /\ Property.id p = property_id
     /\ save_property payload w
        = (Py.Ok {| SavedProperty.id := "saved-" ++ property_id;
                    SavedProperty.property := p;
                    SavedProperty.meta :=
                      {| SavedMeta.savedAt :=
                           isoformat (clock_source (env w) (clock_pos (env w))
                                      mod datetime_span) ++ "Z";
                         SavedMeta.alertsEnabled := SavePropertyRequest.alertsEnabled payload;
                         SavedMeta.lastChange := None;
                         SavedMeta.daysSaved := 0 |} |},
           {| store := store w; env := e' |}))
  /\ (~ In property_id catalog_ids ->
      save_property payload w = (Py.HTTPException 404 "not_found" "Property not found", w))
  /\ store (snd (save_property payload w)) = store w.
Proof.
  intros Hw property_id. destruct (reachable_catalog w Hw) as [e He].
  split; [|split].
  - intros Hin. rewrite <- (catalog_ids_spec e), <- He in Hin.
    apply in_map_iff in Hin as (p & Hid & Hp).
    assert (Hfind : find_property (MOCK_PROPERTIES (store w)) property_id = Some p).
    { rewrite <- Hid. apply find_property_some; [|exact Hp].
      rewrite He, catalog_ids_spec. apply catalog_ids_NoDup. }
    exists p. eexists. split; [exact Hp|]. split; [exact Hid|].
    unfold save_property, bind, get_store. cbn [fst snd]. fold property_id.
    rewrite Hfind. reflexivity.
  - intros Hout. unfold save_property, bind, get_store. cbn [fst snd]. fold property_id.
    rewrite find_property_none; [reflexivity|].
    rewrite He, catalog_ids_spec. exact Hout.
  - apply keeps_save_property.
Qed.

End Saving.

(** ** Routing *)

Lemma Method_eqb_eq (a b : Method) : Method_eqb a b = true -> a = b.
Proof. destruct a, b; simpl; congruence. Qed.

(** The router's choice is the first route, in declaration order, whose
    path template and method both match. *)
Lemma route_full_match (rs : list (Method * string * Endpoint)) (m : Method) (p : string)
    (ep : Endpoint) (params : list (string * string)) :
  route rs m p = FullMatch ep params ->
  exists i t,
    rs !! i = Some (m, t, ep)
    /\ match_path t p = Some params
    /\ forall j t' ep', (j < i)%nat -> rs !! j = Some (m, t', ep') -> match_path t' p = None.
Proof.
  induction rs as [|[[m' t] ep'] rs IH]; cbn [route]; [discriminate|].
  destruct (match_path t p) as [params'|] eqn:Et.
  - destruct (Method_eqb m m') eqn:Em.
    + intros [= <- <-]. apply Method_eqb_eq in Em as <-.
      exists 0%nat, t. split; [reflexivity|]. split; [exact Et|]. intros; lia.
    + intros Hr. destruct (route rs m p) as [ep0 params0| |] eqn:Er; try discriminate.
      injection Hr as -> ->. destruct (IH eq_refl) as (i & t0 & Hi & Ht0 & Hbefore).
      exists (S i), t0. split; [exact Hi|]. split; [exact Ht0|].
      intros [|j] t' ep'' Hj Hl; cbn in Hl.
      * injection Hl as Hm _ _. rewrite Hm in Em. destruct m; discriminate.
      * apply (Hbefore j t' ep''); [lia | exact Hl].
  - intros Hr. destruct (IH Hr) as (i & t0 & Hi & Ht0 & Hbefore).
    exists (S i), t0. split; [exact Hi|]. split; [exact Ht0|].
    intros [|j] t' ep'' Hj Hl; cbn in Hl.
    + injection Hl as _ <- _. exact Et.
    + apply (Hbefore j t' ep''); [lia | exact Hl].
Qed.

(** The paths that match the template of the saved-properties list:
    the path itself, and the path followed by one line feed. *)
Lemma saved_path_segments (p : string) (params : list (string * string)) :
  match_path saved_list_path p = Some params ->
  split_slash p = [""; "api"; "v2"; "mobile"; "properties"; "saved"]
  \/ split_slash p = [""; "api"; "v2"; "mobile"; "properties"; "saved" ++ newline].
Proof.
  unfold match_path.
  change (split_slash saved_list_path)
    with [""; "api"; "v2"; "mobile"; "properties"; "saved"].
  generalize (split_slash p). intros segs.
  do 5 (destruct segs as [|? segs]; [discriminate|];
        cbn [match_segments]; cbv [param_name];
        match goal with
        | |- context [String.eqb ?a ?b] =>
            destruct (String.eqb_spec a b) as [<-|]; [|discriminate]
        end).
  destruct segs as [|last segs]; [discriminate|].
  cbn [match_segments]. cbv [param_name].
  destruct segs as [|? segs].
  - unfold literal_at_end.
    destruct (String.eqb_spec "saved" last) as [<-|_]; [intros _; left; reflexivity|].
    destruct (String.eqb_spec ("saved" ++ newline) last) as [<-|_]; [|discriminate].
    intros _. right. reflexivity.
  - destruct (String.eqb "saved" last); discriminate.
Qed.

(** Routing looks at a path through its segments only. *)
Lemma route_segments (rs : list (Method * string * Endpoint)) (m : Method) (p p' : string) :
  split_slash p = split_slash p' -> route rs m p = route rs m p'.
Proof.
  intros Hs. induction rs as [|[[m' t] ep] rs IH]; cbn [route]; [reflexivity|].
  unfold match_path. rewrite Hs, IH. reflexivity.
Qed.

(** A GET of such a path is routed to the detail handler, the last
    segment being the value of [property_id]. *)
Lemma saved_path_routed_to_detail (p : string) (params : list (string * string)) :
  match_path saved_list_path p = Some params ->
  exists property_id,
    (property_id = "saved" \/ property_id = "saved" ++ newline)
    /\ match_path "/api/v2/mobile/properties/{property_id}" p
       = Some [("property_id", property_id)]
    /\ route routes GET p = FullMatch ep_get_property [("property_id", property_id)].
Proof.
  intros Hp. destruct (saved_path_segments p params Hp) as [Hs|Hs].
  - exists "saved". split; [left; reflexivity|]. split.
    + unfold match_path. rewrite Hs. reflexivity.
    + rewrite (route_segments routes GET p saved_list_path) by exact Hs. reflexivity.
  - exists ("saved" ++ newline). split; [right; reflexivity|]. split.
    + unfold match_path. rewrite Hs. reflexivity.
    + rewrite (route_segments routes GET p (saved_list_path ++ newline)) by exact Hs.
      reflexivity.
Qed.

Section DeadRoute.
Context `{PyLib}.

(** X7.  No request is ever answered by [get_saved_properties]:
    whatever the method, path, query parameters and body of a request,
    and whatever the state, the application does not call this handler.
    Its route is declared after the route of [get_property], whose
    template matches every path that the template of the list matches
    (the path, and the path followed by a line feed), with the same
    method: a GET of such a path is routed to [get_property], with the
    last segment as [property_id]. *)
Theorem get_saved_properties_is_never_called (req : Request) (w : World) :
  (forall params,
     route routes (method req) (path req) <> FullMatch ep_get_saved_properties params)
  /\ (forall r, fst (serve req w) <> Handled call_get_saved_properties r)
  /\ forall params,
       method req = GET ->
       match_path saved_list_path (path req) = Some params ->
       exists property_id,
         (property_id = "saved" \/ property_id = "saved" ++ newline)
         /\ route routes (method req) (path req)
            = FullMatch ep_get_property [("property_id", property_id)].
Proof.
  assert (Hroute : forall params,
            route routes (method req) (path req)
            <> FullMatch ep_get_saved_properties params).
  { intros params Hr.
    apply route_full_match in Hr as (i & t & Hi & Ht & Hbefore).
    do 8 (destruct i as [|i]; [discriminate Hi|]).
    destruct i as [|i];
      [|exfalso; do 7 (destruct i as [|i]; [discriminate Hi|]); discriminate Hi].
    injection Hi as Hm <-.
    pose proof (Hbefore 7%nat "/api/v2/mobile/properties/{property_id}" ep_get_property)
      as Hdetail.
    rewrite <- Hm in Hdetail.
    destruct (saved_path_routed_to_detail _ _ Ht) as (property_id & _ & Hmatch & _).
    rewrite Hmatch in Hdetail.
    discriminate Hdetail; [lia | reflexivity]. }
  split; [exact Hroute|]. split.
  - intros r. unfold serve.
    destruct (route routes (method req) (path req)) as [ep params| |] eqn:Er;
      try discriminate.
    destruct (bind_arguments ep params req) as [c|] eqn:Eb; [|discriminate].
    destruct (run c w) as [r' w'] eqn:Erun. cbn [fst]. intros [= -> _].
    destruct ep; cbn [bind_arguments] in Eb;
      try discriminate Eb;
      try (destruct (body req); discriminate Eb).
    exact (Hroute params eq_refl).
  - intros params Hm Hp. rewrite Hm.
    destruct (saved_path_routed_to_detail _ _ Hp) as (property_id & Hid & _ & Hr).
    exists property_id. split; [exact Hid | exact Hr].
Qed.

End DeadRoute.

(** ** Paging through the search results *)

(** The first [m] chunks of size [n] of a list make up its first
    [m * n] elements. *)
Lemma chunks_take {A} (l : list A) (n : Z) (m : nat) :
  1 <= n ->
  concat (List.map (fun k => window l ((k - 1) * n) ((k - 1) * n + n)) (seqZ 1 (Z.of_nat m)))
  = take (Z.to_nat (Z.of_nat m * n)) l.
Proof.
  intros Hn. induction m as [|m IH].
  - reflexivity.
  - rewrite seqZ_S, map_app, concat_app, IH. cbn [List.map concat]. rewrite app_nil_r.
    unfold window.
    replace (Z.to_nat ((1 + Z.of_nat m - 1) * n + n - (1 + Z.of_nat m - 1) * n))
      with (Z.to_nat n) by lia.
    replace (Z.to_nat ((1 + Z.of_nat m - 1) * n)) with (Z.to_nat (Z.of_nat m * n))
      by (f_equal; lia).
    rewrite take_take_drop. f_equal. nia.
Qed.

Section Paging.
Context `{PyLib}.

Lemma search_items_unfold (page pageSize : Z) (query : option string) (w : World) :
  Z.min pageSize 50 <> 0 ->
  search_items page pageSize query w
  = Py.slice (filtered_properties query (MOCK_PROPERTIES (store w)))
             ((page - 1) * Z.min pageSize 50)
             ((page - 1) * Z.min pageSize 50 + Z.min pageSize 50).
Proof.
  intros Hps. unfold search_items. rewrite search_properties_unfold. cbv zeta.
  destruct (Z.min pageSize 50 =? 0) eqn:E; [apply Z.eqb_eq in E; contradiction|].
  reflexivity.
Qed.

(** X8.  Paging through a search.  For a page size of at least 1 and
    any query, the pages 1, 2, ..., [totalPages] of the answers, put
    end to end, are exactly the filtered list: every match once, in the
    order of the store.  The page [totalPages] holds the remainder of
    the number of matches by the page size, so it is empty when the
    page size divides that number; every page after it is empty. *)
Theorem search_pages_cover (pageSize : Z) (query : option string) (w : World) :
  1 <= pageSize ->
  let filtered := filtered_properties query (MOCK_PROPERTIES (store w)) in
  let page_size := Z.min pageSize 50 in
  let totalPages := Z.of_nat (length filtered) / page_size + 1 in
  (forall page,
     exists resp,
       search_properties page pageSize query w = (Py.Ok resp, w)
       /\ SearchResponse.items resp = search_items page pageSize query w
       /\ Meta.totalPages (SearchResponse.meta resp) = totalPages)
  /\ concat (List.map (fun page => search_items page pageSize query w) (seqZ 1 totalPages))
     = filtered
  /\ Z.of_nat (length (search_items totalPages pageSize query w))
     = Z.of_nat (length filtered) mod page_size
  /\ forall page, totalPages < page -> search_items page pageSize query w = [].
Proof.
  intros Hsize filtered page_size totalPages.
  assert (Hps : 1 <= page_size) by (unfold page_size; lia).
  assert (Hne : Z.min pageSize 50 <> 0) by (fold page_size; lia).
  pose proof (Z.div_mod (Z.of_nat (length filtered)) page_size ltac:(lia)) as Hdm.
  pose proof (Z.mod_pos_bound (Z.of_nat (length filtered)) page_size ltac:(lia)) as Hmod.
  assert (Hq : 0 <= Z.of_nat (length filtered) / page_size)
    by (apply Z.div_pos; lia).
  assert (Hitems : forall page, 1 <= page ->
            search_items page pageSize query w
            = window filtered ((page - 1) * page_size) ((page - 1) * page_size + page_size)).
  { intros page Hpage. rewrite search_items_unfold by exact Hne.
    apply slice_window; [nia | lia]. }
  split; [|split; [|split]].
  - intros page. unfold search_items. rewrite search_properties_unfold. cbv zeta.
    fold filtered. fold page_size.
    destruct (page_size =? 0) eqn:E; [apply Z.eqb_eq in E; lia|].
    eexists. split; [reflexivity|]. split; reflexivity.
  - rewrite (map_ext_in _ (fun k => window filtered ((k - 1) * page_size)
                                      ((k - 1) * page_size + page_size))).
    + replace totalPages with (Z.of_nat (Z.to_nat totalPages)) by (unfold totalPages; lia).
      rewrite chunks_take by exact Hps. apply take_ge.
      unfold totalPages. nia.
    + intros page Hin. apply list_elem_of_In, elem_of_seqZ in Hin. apply Hitems. lia.
  - rewrite Hitems by (unfold totalPages; lia).
    rewrite window_length by (unfold totalPages; nia).
    unfold totalPages.
    destruct ((Z.of_nat (length filtered) / page_size + 1 - 1) * page_size + page_size
              <=? Z.of_nat (length filtered)) eqn:E1;
      [apply Z.leb_le in E1; nia|].
    destruct ((Z.of_nat (length filtered) / page_size + 1 - 1) * page_size
              <? Z.of_nat (length filtered)) eqn:E2;
      [apply Z.ltb_lt in E2 | apply Z.ltb_ge in E2]; nia.
  - intros page Hpage. rewrite Hitems by (unfold totalPages in Hpage; lia).
    unfold window. rewrite drop_ge; [apply firstn_nil|].
    unfold totalPages in Hpage. nia.
Qed.

(** X9.  Pages below 1 are not refused.  With a page size of at least
    1, page 0 answers with no items, and a negative page answers with
    the items of a window counted from the end of the filtered list,
    [len + (page - 1) * page_size] to [len + page * page_size] clipped
    at 0: it is not empty as soon as the list has more than
    [-page * page_size] elements. *)
Theorem search_page_below_one (page pageSize : Z) (query : option string) (w : World) :
  1 <= pageSize -> page <= 0 ->
  let filtered := filtered_properties query (MOCK_PROPERTIES (store w)) in
  let page_size := Z.min pageSize 50 in
  let len := Z.of_nat (length filtered) in
  exists resp,
    search_properties page pageSize query w = (Py.Ok resp, w)
    /\ Meta.page (SearchResponse.meta resp) = page
    /\ (page = 0 -> SearchResponse.items resp = [])
    /\ (page < 0 ->
        SearchResponse.items resp
        = window filtered (Z.max 0 (len + (page - 1) * page_size))
                          (Z.max 0 (len + page * page_size)))
    /\ (page < 0 ->
        Z.of_nat (length (SearchResponse.items resp))
        = Z.max 0 (len + page * page_size) - Z.max 0 (len + (page - 1) * page_size)).
Proof.
  intros Hsize Hpage filtered page_size len.
  assert (Hps : 1 <= page_size) by (unfold page_size; lia).
  rewrite search_properties_unfold. cbv zeta. fold filtered. fold page_size.
  destruct (page_size =? 0) eqn:E; [apply Z.eqb_eq in E; lia|].
  eexists. split; [reflexivity|]. cbn [SearchResponse.items SearchResponse.meta Meta.page].
  split; [reflexivity|].
  assert (Hneg : page < 0 ->
            Py.slice filtered ((page - 1) * page_size) ((page - 1) * page_size + page_size)
            = window filtered (Z.max 0 (len + (page - 1) * page_size))
                              (Z.max 0 (len + page * page_size))).
  { intros Hp. unfold Py.slice, window, Py.adjust_index. fold len.
    replace ((page - 1) * page_size <? 0) with true by (symmetry; apply Z.ltb_lt; nia).
    replace ((page - 1) * page_size + page_size <? 0) with true
      by (symmetry; apply Z.ltb_lt; nia).
    f_equal; [|f_equal]; f_equal; nia. }
  split; [|split].
  - intros ->. unfold Py.slice, Py.adjust_index. fold len.
    replace ((0 - 1) * page_size <? 0) with true by (symmetry; apply Z.ltb_lt; lia).
    replace ((0 - 1) * page_size + page_size <? 0) with false
      by (symmetry; apply Z.ltb_ge; lia).
    replace (Z.to_nat (Z.min ((0 - 1) * page_size + page_size) len
                       - Z.max ((0 - 1) * page_size + len) 0)) with 0%nat by lia.
    reflexivity.
  - exact Hneg.
  - intros Hp. rewrite (Hneg Hp). unfold window. rewrite length_take, length_drop.
    fold len. nia.
Qed.

(** X10.  The answers without a query do not depend on what [random]
    yielded.  In every state of a running process, for [page >= 1] and
    [pageSize >= 1], the ids of the items are the window of
    [property-1], ..., [property-50] that starts at
    [(page - 1) * page_size], in this order; [totalItems] is 50 and
    [totalPages] is [50 // page_size + 1]. *)
Theorem search_without_query_lists_ids_in_order (page pageSize : Z) (w : World) :
  reachable w -> 1 <= page -> 1 <= pageSize ->
  let page_size := Z.min pageSize 50 in
  let start := (page - 1) * page_size in
  exists resp,
    search_properties page pageSize None w = (Py.Ok resp, w)
    /\ List.map Property.id (SearchResponse.items resp)
       = window catalog_ids start (start + page_size)
    /\ Meta.totalItems (SearchResponse.meta resp) = 50
    /\ Meta.totalPages (SearchResponse.meta resp) = 50 / page_size + 1.
Proof.
  intros Hw Hpage Hsize page_size start.
  destruct (reachable_catalog w Hw) as [e He].
  rewrite search_properties_unfold. cbv zeta. fold page_size. fold start.
  destruct (page_size =? 0) eqn:E; [apply Z.eqb_eq in E; unfold page_size in E; lia|].
  eexists. split; [reflexivity|].
  cbn [SearchResponse.items SearchResponse.meta Meta.totalItems Meta.totalPages
       filtered_properties].
  rewrite He, catalog_length.
  split; [|split; reflexivity].
  rewrite slice_window by (unfold start, page_size; nia).
  unfold window. rewrite <- (catalog_ids_spec e).
  rewrite skipn_map, firstn_map. reflexivity.
Qed.

(** X11.  The case of the query does not matter: two queries with the
    same lower-case form get the same answer, for every page and page
    size and in every state. *)
Theorem search_query_case_is_ignored (page pageSize : Z) (q q' : string) (w : World) :
  lower q = lower q' ->
  search_properties page pageSize (Some q) w = search_properties page pageSize (Some q') w.
Proof.
  intros Hq.
  assert (Hall : forall (l : list Property.t), List.filter (matches "") l = l).
  { intros l. apply forallb_filter_id, forallb_forall. intros p _.
    unfold matches. destruct (lower (Address.city (Property.address p))); reflexivity. }
  assert (Hf : forall l, filtered_properties (Some q) l = filtered_properties (Some q') l).
  { intros l. unfold filtered_properties, Py.truthy.
    destruct (String.eqb_spec q "") as [->|Hne]; destruct (String.eqb_spec q' "") as [->|Hne'];
      cbn [negb]; try reflexivity.
    - rewrite <- Hq, lower_empty, Hall. reflexivity.
    - rewrite Hq, lower_empty, Hall. reflexivity.
    - rewrite Hq. reflexivity. }
  rewrite !search_properties_unfold. cbv zeta. rewrite Hf. reflexivity.
Qed.

End Paging.

(** ** The detail fields *)

Lemma get_property_detail (property_id : string) (p : Property.t) (w : World) :
  find_property (MOCK_PROPERTIES (store w)) property_id = Some p ->
  0 < Property.price p < 2 ^ 53 ->
  Property.sizeSqm p <> 0 ->
  wp (get_property property_id) w
     (fun full w' => store w' = store w /\ detail_fields property_id p full).
Proof.
  intros Hfind Hprice Hsize.
  destruct (forecasts_return _ Hprice) as (z12 & z24 & z60 & H12 & H24 & H60).
  unfold get_property. apply wp_bind, wp_get_store. rewrite Hfind. cbv zeta.
  do 8 wp_next.
  unfold int_of_product in H12, H24, H60.
  destruct (Py.mul_int_float (Property.price p) 1.05) as [x12| |] eqn:E12; try discriminate.
  destruct (Py.mul_int_float (Property.price p) 1.08) as [x24| |] eqn:E24; try discriminate.
  destruct (Py.mul_int_float (Property.price p) 1.15) as [x60| |] eqn:E60; try discriminate.
  apply wp_bind, (wp_lift _ x12); [reflexivity|].
  apply wp_bind, (wp_lift _ z12); [exact H12|].
  apply wp_bind, (wp_lift _ x24); [reflexivity|].
  apply wp_bind, (wp_lift _ z24); [exact H24|].
  apply wp_bind, (wp_lift _ x60); [reflexivity|].
  apply wp_bind, (wp_lift _ z60); [exact H60|].
  apply wp_bind, (wp_lift _ (Property.price p / Property.sizeSqm p));
    [apply floordiv_ok; exact Hsize|].
  do 7 wp_next. wp_next.
  split; [reflexivity|]. unfold detail_fields. cbn.
  repeat (split; [first [reflexivity | lia]|]). reflexivity.
Qed.

Section DetailFields.
Context `{PyLib}.

(** X12.  In every state of a running process, for every id of the
    catalog the detail handler returns the stored property together
    with the detail fields in their ranges, whatever [random] yields:
    three image urls made from the id, no videos, 0 to 2 parking spots,
    a balcony of 0 to 20, a neighbourhood average price within 5000 of
    the property's own price per square metre, an average score of 70
    to 85, 50 to 200 properties, and the counts of schools, parks,
    transit lines and shopping centres in [1,5], [1,3], [2,8], [1,4].
    The store is left as it is. *)
Theorem get_property_detail_fields (property_id : string) (w : World) :
  reachable w ->
  In property_id catalog_ids ->
  exists p full w',
    In p (MOCK_PROPERTIES (store w))
    /\ Property.id p = property_id
    /\ get_property property_id w = (Py.Ok full, w')
    /\ store w' = store w
    /\ detail_fields property_id p full
    /\ Property.pricePerSqm p - 5000
       <= Neighborhood.avgPricePerSqm (FullProperty.neighborhood full)
       <= Property.pricePerSqm p + 5000.
Proof.
  intros Hw Hin. destruct (reachable_catalog w Hw) as [e He].
  rewrite <- (catalog_ids_spec e), <- He in Hin.
  apply in_map_iff in Hin as (p & Hid & Hp).
  assert (Hfind : find_property (MOCK_PROPERTIES (store w)) property_id = Some p).
  { rewrite <- Hid. apply find_property_some; [|exact Hp].
    rewrite He, catalog_ids_spec. apply catalog_ids_NoDup. }
  pose proof Hp as Hp'. rewrite He in Hp'.
  destruct (catalog_generated e p Hp') as (i & _ & Hprice & Hsize & Hsqm & _).
  destruct (get_property_detail property_id p w Hfind)
    as (full & w' & Hrun & Hstore & Hfields); [lia | lia |].
  exists p, full, w'. repeat (split; [assumption|]).
  rewrite Hsqm. unfold detail_fields in Hfields. tauto.
Qed.

End DetailFields.

(** ** Outcomes of the handlers that read the clock *)

Lemma later_refl (w : World) : later w w.
Proof. split; reflexivity. Qed.

Lemma later_trans (w1 w2 w3 : World) : later w1 w2 -> later w2 w3 -> later w1 w3.
Proof. intros [? ?] [? ?]. split; congruence. Qed.

Lemma post_ret {A} (a : A) (w : World) (Q : Py.outcome A -> World -> Prop) :
  Q (Py.Ok a) w -> post (ret a) w Q.
Proof. intros HQ. exact HQ. Qed.

Lemma post_bind {A B} (m : M A) (k : A -> M B) (w : World)
    (Q : Py.outcome B -> World -> Prop) :
  post m w (fun o w1 =>
              match o with
              | Py.Ok a => post (k a) w1 Q
              | Py.HTTPException c e msg => Q (Py.HTTPException c e msg) w1
              | Py.Raised e => Q (Py.Raised e) w1
              end) ->
  post (bind m k) w Q.
Proof.
  unfold post, bind. destruct (m w) as [[a|c e msg|e] w1]; cbn [fst snd]; auto.
Qed.

Lemma post_mono {A} (m : M A) (w : World) (Q Q' : Py.outcome A -> World -> Prop) :
  post m w Q -> (forall o w', Q o w' -> Q' o w') -> post m w Q'.
Proof. unfold post. auto. Qed.

Lemma post_random_draw (w : World) (Q : Py.outcome Z -> World -> Prop) :
  (forall d w', later w w' -> Q (Py.Ok d) w') -> post random_draw w Q.
Proof. intros HQ. apply HQ. split; reflexivity. Qed.

Lemma post_randint (a b : Z) (w : World) (Q : Py.outcome Z -> World -> Prop) :
  a <= b ->
  (forall v w', a <= v <= b -> later w w' -> Q (Py.Ok v) w') ->
  post (randint a b) w Q.
Proof.
  intros Hab HQ. unfold randint.
  replace (b <? a) with false by (symmetry; apply Z.ltb_ge; lia).
  apply post_bind, post_random_draw. intros d w' Hl. apply post_ret, HQ; [|exact Hl].
  pose proof (Z.mod_pos_bound d (b - a + 1)). lia.
Qed.

Lemma post_choice {A} (l : list A) (w : World) (Q : Py.outcome A -> World -> Prop) :
  l <> [] ->
  (forall v w', In v l -> later w w' -> Q (Py.Ok v) w') ->
  post (choice l) w Q.
Proof.
  intros Hne HQ. destruct l as [|x l]; [congruence|]. unfold choice.
  apply post_bind, post_random_draw. intros d w' Hl. apply post_ret, HQ; [|exact Hl].
  apply nth_In.
  pose proof (Z.mod_pos_bound d (Z.of_nat (length (x :: l)))). simpl length in *. lia.
Qed.

Lemma post_uniform (a b : float) (w : World) (Q : Py.outcome float -> World -> Prop) :
  (forall r w', later w w' -> Q (Py.Ok r) w') -> post (uniform a b) w Q.
Proof.
  intros HQ. unfold uniform, random.
  apply post_bind, post_bind, post_random_draw. intros d w' Hl.
  apply post_ret, post_ret, HQ, Hl.
Qed.

Lemma post_utcnow (w : World) (Q : Py.outcome Z -> World -> Prop) :
  (forall w', later w w' ->
     Q (Py.Ok (clock_source (env w) (clock_pos (env w)) mod datetime_span)) w') ->
  post utcnow w Q.
Proof. intros HQ. apply HQ. split; reflexivity. Qed.

Lemma post_datetime_add (d delta : Z) (w : World) (Q : Py.outcome Z -> World -> Prop) :
  (0 <= d + delta < datetime_span -> Q (Py.Ok (d + delta)) w) ->
  (~ 0 <= d + delta < datetime_span -> Q (Py.Raised Py.OverflowError) w) ->
  post (datetime_add d delta) w Q.
Proof.
  intros Hok Hraise. unfold post, datetime_add. cbv zeta.
  destruct (d + delta <? 0) eqn:E1; [apply Z.ltb_lt in E1 | apply Z.ltb_ge in E1];
    destruct (datetime_span <=? d + delta) eqn:E2;
    [apply Z.leb_le in E2 | apply Z.leb_gt in E2 | apply Z.leb_le in E2 | apply Z.leb_gt in E2];
    cbn; first [apply Hok; lia | apply Hraise; lia].
Qed.

Lemma property_id_in_catalog (n : Z) :
  1 <= n <= 50 -> In ("property-" ++ Py.str_of_int n) catalog_ids.
Proof.
  intros Hn. unfold catalog_ids.
  apply (in_map (fun i => "property-" ++ Py.str_of_int i)).
  apply list_elem_of_In, elem_of_seqZ. lia.
Qed.

(** A loop that appends [f x] for each [x]: it yields the list of the
    results, or stops at the first [OverflowError]. *)
Lemma map_m_outcome {A B} (f : A -> M B) (R : A -> B -> Prop)
    (F : (nat -> Z) -> A -> Prop) (l : list A) (w : World) :
  (forall x w, In x l ->
     post (f x) w
       (fun o w' =>
          later w w'
          /\ match o with
             | Py.Ok y => R x y
             | Py.Raised Py.OverflowError => F (clock_source (env w)) x
             | _ => False
             end)) ->
  post (map_m f l) w
    (fun o w' =>
       later w w'
       /\ match o with
          | Py.Ok ys => Forall2 R l ys
          | Py.Raised Py.OverflowError => exists x, In x l /\ F (clock_source (env w)) x
          | _ => False
          end).
Proof.
  revert w. induction l as [|x l IH]; intros w Hf; cbn [map_m].
  - apply post_ret. split; [apply later_refl | constructor].
  - apply post_bind. apply (post_mono _ _ _ _ (Hf x w (or_introl eq_refl))).
    intros [y| |[]] w1 [L1 Hy]; try contradiction.
    + apply post_bind.
      apply (post_mono _ _ _ _ (IH w1 (fun x' w' Hin => Hf x' w' (or_intror Hin)))).
      intros [ys| |[]] w2 [L2 Hys]; try contradiction.
      * apply post_ret. split; [eapply later_trans; eassumption|].
        constructor; assumption.
      * split; [eapply later_trans; eassumption|].
        destruct Hys as (x' & Hin & Hx'). exists x'. split; [right; exact Hin|].
        destruct L1 as [_ <-]. exact Hx'.
    + split; [exact L1|]. exists x. split; [left; reflexivity | exact Hy].
Qed.

Section Notifications.
Context `{PyLib}.

(** One iteration of the loop: it yields the notification for [i], or
    raises [OverflowError] when the clock reads less than [i] hours
    after [datetime.min]. *)
Lemma notification_outcome (i : Z) (w : World) :
  0 <= i ->
  post (notification i) w
    (fun o w' =>
       later w w'
       /\ match o with
          | Py.Ok n => notification_fields i n /\ hours i < datetime_span
          | Py.Raised Py.OverflowError =>
              exists k, clock_source (env w) k mod datetime_span < hours i
          | _ => False
          end).
Proof.
  intros Hi. unfold notification.
  apply post_bind, post_choice; [discriminate|]. intros type w1 Htype L1.
  apply post_bind, post_utcnow. intros w2 L2.
  pose proof (Z.mod_pos_bound (clock_source (env w1) (clock_pos (env w1))) datetime_span
                eq_refl) as Hnow.
  apply post_bind. unfold datetime_sub. apply post_datetime_add.
  - intros Hrange.
    apply post_bind, post_randint; [lia|]. intros n w3 Hn L3.
    apply post_bind, post_randint; [lia|]. intros rqScore w4 Hscore L4.
    apply post_bind, post_randint; [lia|]. intros price w5 Hprice L5.
    apply post_bind, post_uniform. intros changePercent w6 L6.
    apply post_ret. split.
    + repeat (eapply later_trans; [eassumption|]). apply later_refl.
    + split; [|unfold hours in *; lia].
      unfold notification_fields. cbn.
      repeat (split; [first [reflexivity | assumption | lia
                            | apply property_id_in_catalog; assumption]|]).
      lia.
  - intros Hrange. split; [eapply later_trans; eassumption|].
    exists (clock_pos (env w1)). destruct L1 as [_ <-]. unfold hours in *. lia.
Qed.

Lemma notifications_outcome (l : list Z) (w : World) :
  Forall (fun i => 0 <= i) l ->
  post (map_m notification l) w
    (fun o w' =>
       later w w'
       /\ match o with
          | Py.Ok ns =>
              Forall2 (fun i n => notification_fields i n /\ hours i < datetime_span) l ns
          | Py.Raised Py.OverflowError =>
              exists i, In i l /\ exists k, clock_source (env w) k mod datetime_span < hours i
          | _ => False
          end).
Proof.
  intros Hl.
  apply (map_m_outcome notification
           (fun i n => notification_fields i n /\ hours i < datetime_span)
           (fun clock i => exists k, clock k mod datetime_span < hours i)).
  intros i w0 Hin. apply notification_outcome.
  rewrite Forall_forall in Hl. apply Hl, list_elem_of_In, Hin.
Qed.

Lemma seqZ_nonneg (n : Z) : Forall (fun i => 0 <= i) (seqZ 0 n).
Proof. apply Forall_seqZ. intros; lia. Qed.

(** X13.  The answer of [get_notifications].  Whenever the handler
    returns, it returns [pageSize] notifications (none when [pageSize]
    is not positive), with ids [notif-0], [notif-1], ... in order, each
    unread, of one of the three types, about a property id of the
    catalog, with a score in [60, 90] and a price in [1500000,
    4000000]; and [meta] is the given page and page size with
    [totalPages = 3] and [totalItems = 25], whatever the number of
    items.  The store is left as it is.  The handler returns whenever
    the clock reads at least [pageSize - 1] hours after
    [datetime.min]. *)
Theorem get_notifications_answer (page pageSize : Z) (w : World) :
  (forall r w',
     get_notifications page pageSize w = (Py.Ok r, w') ->
     Forall2 notification_fields (seqZ 0 pageSize) (NotificationsResponse.items r)
     /\ length (NotificationsResponse.items r) = Z.to_nat pageSize
     /\ NotificationsResponse.meta r
        = {| Meta.page := page; Meta.pageSize := pageSize;
             Meta.totalPages := 3; Meta.totalItems := 25 |}
     /\ store w' = store w)
  /\ ((forall k, hours (pageSize - 1) <= clock_source (env w) k mod datetime_span) ->
      exists r w', get_notifications page pageSize w = (Py.Ok r, w'))
  /\ (pageSize <= 0 ->
      get_notifications page pageSize w
      = (Py.Ok {| NotificationsResponse.items := [];
                  NotificationsResponse.meta :=
                    {| Meta.page := page; Meta.pageSize := pageSize;
                       Meta.totalPages := 3; Meta.totalItems := 25 |} |}, w)).
Proof.
  pose proof (notifications_outcome (seqZ 0 pageSize) w (seqZ_nonneg pageSize)) as Hout.
  unfold post in Hout. unfold get_notifications, bind.
  destruct (map_m notification (seqZ 0 pageSize) w) as [[ns|c e msg|[]] w1] eqn:Erun;
    cbn [fst snd] in Hout; destruct Hout as [[Hstore _] Hout]; try contradiction.
  - split; [|split].
    + intros r w' [= <- <-]. cbn.
      split; [eapply Forall2_impl; [exact Hout | intros i n [Hn _]; exact Hn]|].
      split; [|split; [reflexivity | exact Hstore]].
      rewrite <- (Forall2_length _ _ _ Hout). apply length_seqZ.
    + intros _. eexists _, _. reflexivity.
    + intros Hle. rewrite seqZ_nil in Erun by exact Hle. injection Erun as <- <-.
      reflexivity.
  - split; [intros r w' [=]|]. split.
    + intros Hclock. exfalso. destruct Hout as (i & Hin & k & Hk).
      apply list_elem_of_In, elem_of_seqZ in Hin. specialize (Hclock k).
      unfold hours in *. lia.
    + intros Hle. rewrite seqZ_nil in Erun by exact Hle. discriminate Erun.
Qed.

(** X14.  How [get_notifications] fails.  It never fails with an
    [HTTPException]; the only exception it raises is [OverflowError],
    from subtracting the hours of an iteration from the current time;
    and with a page size above 87649416, the number of hours between
    [datetime.min] and [datetime.max], it raises it whatever the clock
    reads. *)
Theorem get_notifications_overflow (page pageSize : Z) (w : World) :
  (forall c e msg, fst (get_notifications page pageSize w) <> Py.HTTPException c e msg)
  /\ (forall x, fst (get_notifications page pageSize w) = Py.Raised x -> x = Py.OverflowError)
  /\ (87649416 < pageSize ->
      fst (get_notifications page pageSize w) = Py.Raised Py.OverflowError)
  /\ store (snd (get_notifications page pageSize w)) = store w.
Proof.
  pose proof (notifications_outcome (seqZ 0 pageSize) w (seqZ_nonneg pageSize)) as Hout.
  unfold post in Hout. unfold get_notifications, bind.
  destruct (map_m notification (seqZ 0 pageSize) w) as [[ns|c e msg|[]] w1] eqn:Erun;
    cbn [fst snd] in *; destruct Hout as [[Hstore _] Hout]; try contradiction.
  - split; [discriminate|]. split; [discriminate|]. split; [|exact Hstore].
    intros Hbig. exfalso.
    assert (Hin : seqZ 0 pageSize !! Z.to_nat 87649416 = Some 87649416)
      by (apply lookup_seqZ; lia).
    destruct (Forall2_lookup_l _ _ _ _ _ Hout Hin) as (n & _ & _ & Hlt).
    vm_compute in Hlt. discriminate Hlt.
  - split; [discriminate|]. split; [intros x [= <-]; reflexivity|].
    split; [reflexivity | exact Hstore].
Qed.

End Notifications.

(** ** Tokens *)

(** X15.  Whom the tokens name.  The tokens of a successful login carry
    the id of the user who logged in; [refresh_token] returns for every
    payload, without looking at the refresh token, and its tokens
    always carry the id [user-123].  So refreshing after a login as
    another user gives tokens that name [user-123], not that user. *)
Theorem refresh_token_names_user_123 (lp : LoginRequest.t) (rp : RefreshRequest.t)
    (w : World) :
  (forall r w1,
     login lp w = (Py.Ok r, w1) ->
     let h1 := uuid_source (env w) (uuid_pos (env w)) in
     let h2 := uuid_source (env w) (S (uuid_pos (env w))) in
     Tokens.accessToken (AuthResponse.tokens r)
     = "access-token-" ++ User.id (AuthResponse.user r) ++ "-" ++ Py.str_take 16 h1
     /\ Tokens.refreshToken (AuthResponse.tokens r)
        = "refresh-token-" ++ User.id (AuthResponse.user r) ++ "-" ++ Py.str_take 16 h2
     /\ Tokens.expiresIn (AuthResponse.tokens r) = 3600)
  /\ exists t w',
       refresh_token rp w = (Py.Ok t, w')
       /\ Tokens.accessToken t
          = "access-token-user-123-"
            ++ Py.str_take 16 (uuid_source (env w) (uuid_pos (env w)))
       /\ Tokens.refreshToken t
          = "refresh-token-user-123-"
            ++ Py.str_take 16 (uuid_source (env w) (S (uuid_pos (env w))))
       /\ Tokens.expiresIn t = 3600
       /\ store w' = store w.
Proof.
  split.
  - intros r w1. unfold login, bind, get_store, contains, subscript. cbn [fst snd].
    destruct (MOCK_USERS (store w) !! LoginRequest.email lp) as [u|]; [|discriminate].
    destruct (accepted_password (LoginRequest.password lp)); [|discriminate].
    cbn. intros [= <- <-]. cbn. auto.
  - eexists _, _. split; [reflexivity|]. cbn. auto.
Qed.

(** ** The saved-properties handler, its entries *)

Lemma Forall2_map_eq {A B C} (f : A -> C) (g : B -> C) (l : list A) (k : list B) :
  Forall2 (fun a b => g b = f a) l k -> List.map g k = List.map f l.
Proof. induction 1 as [|a b l k Hab _ IH]; cbn; congruence. Qed.

Section SavedEntries.
Context `{PyLib}.

Lemma saved_entry_outcome (prop : Property.t) (w : World) :
  post (saved_entry prop) w
    (fun o w' =>
       later w w'
       /\ match o with
          | Py.Ok s => saved_fields prop s
          | Py.Raised Py.OverflowError =>
              exists k, clock_source (env w) k mod datetime_span < days 30
          | _ => False
          end).
Proof.
  unfold saved_entry.
  apply post_bind, post_utcnow. intros w1 L1.
  apply post_bind, post_randint; [lia|]. intros d w2 Hd L2.
  pose proof (Z.mod_pos_bound (clock_source (env w) (clock_pos (env w))) datetime_span
                eq_refl) as Hnow.
  apply post_bind. unfold datetime_sub. apply post_datetime_add.
  - intros Hrange.
    apply post_bind, post_choice; [discriminate|]. intros alertsEnabled w3 _ L3.
    apply post_bind, post_choice; [discriminate|]. intros lastChange w4 _ L4.
    apply post_bind, post_randint; [lia|]. intros daysSaved w5 HdaysSaved L5.
    apply post_ret. split.
    + repeat (eapply later_trans; [eassumption|]). apply later_refl.
    + unfold saved_fields. cbn. eauto.
  - intros Hrange. split; [eapply later_trans; eassumption|].
    exists (clock_pos (env w)). unfold days in *. lia.
Qed.

(** X16.  [get_saved_properties] called directly (no request reaches
    it).  In every state of a running process, whenever it returns it
    returns five entries, for the first five properties of the catalog
    in order, with ids [saved-property-1] to [saved-property-5], each
    holding the stored property and a number of days saved in [1, 30];
    the store is left as it is.  It returns whenever the clock reads at
    least 30 days after [datetime.min], and otherwise can only raise
    [OverflowError]. *)
Theorem get_saved_properties_five_entries (w : World) :
  reachable w ->
  (forall items w',
     get_saved_properties w = (Py.Ok items, w') ->
     Forall2 saved_fields (take 5 (MOCK_PROPERTIES (store w))) items
     /\ List.map SavedProperty.id items
        = List.map (fun i => "saved-property-" ++ Py.str_of_int i) (seqZ 1 5)
     /\ length items = 5%nat
     /\ store w' = store w)
  /\ ((forall k, days 30 <= clock_source (env w) k mod datetime_span) ->
      exists items w', get_saved_properties w = (Py.Ok items, w'))
  /\ (forall c e msg, fst (get_saved_properties w) <> Py.HTTPException c e msg)
  /\ (forall x, fst (get_saved_properties w) = Py.Raised x -> x = Py.OverflowError).
Proof.
  intros Hw. destruct (reachable_catalog w Hw) as [e He].
  assert (Hslice : Py.slice (MOCK_PROPERTIES (store w)) 0 5
                   = take 5 (MOCK_PROPERTIES (store w))).
  { change 5 with (0 + 5) at 1. rewrite slice_window by lia. reflexivity. }
  pose proof (map_m_outcome saved_entry saved_fields
                (fun clock _ => exists k, clock k mod datetime_span < days 30)
                (take 5 (MOCK_PROPERTIES (store w))) w
                (fun prop w0 _ => saved_entry_outcome prop w0)) as Hout.
  unfold post in Hout. unfold get_saved_properties, bind, get_store. cbn [fst snd].
  rewrite Hslice.
  destruct (map_m saved_entry (take 5 (MOCK_PROPERTIES (store w))) w)
    as [[items|c e' msg|[]] w1] eqn:Erun;
    cbn [fst snd] in *; destruct Hout as [[Hstore _] Hout]; try contradiction.
  - split; [|split; [|split]]; try discriminate.
    + intros items' w' [= <- <-]. split; [exact Hout|].
      assert (Hids : List.map SavedProperty.id items
                     = List.map (fun i => "saved-property-" ++ Py.str_of_int i) (seqZ 1 5)).
      { rewrite (Forall2_map_eq (fun p => "saved-" ++ Property.id p) SavedProperty.id
                   (take 5 (MOCK_PROPERTIES (store w))) items).
        - rewrite <- (map_map Property.id (fun x => "saved-" ++ x)).
          rewrite <- firstn_map, He, catalog_ids_spec. vm_compute. reflexivity.
        - eapply Forall2_impl; [exact Hout|]. intros p s (Hid & _). exact Hid. }
      split; [exact Hids|]. split; [|exact Hstore].
      rewrite <- (length_map SavedProperty.id), Hids, length_map. reflexivity.
    + intros _. eexists _, _. reflexivity.
  - split; [intros items' w' [=]|]. split; [|split].
    + intros Hclock. exfalso. destruct Hout as (p & _ & k & Hk).
      specialize (Hclock k). lia.
    + discriminate.
    + intros x [= <-]. reflexivity.
Qed.

End SavedEntries.

(** ** Subscription and billing *)

Section Billing.
Context `{PyLib}.

(** X17.  [verify_receipt] does not look at the receipt: for every
    payload it reports success and the subscription that
    [get_subscription] reports at the same time, tier premium,
    renewing, expiring 30 days after the clock's reading.  Both fail,
    with [OverflowError], exactly when that date is past
    [datetime.max]; neither writes the store. *)
Theorem verify_receipt_accepts_any_receipt (payload : ReceiptVerifyRequest.t) (w : World) :
  let now := clock_source (env w) (clock_pos (env w)) mod datetime_span in
  let subscription :=
    {| Subscription.tier := "premium";
       Subscription.expiresAt := isoformat (now + days 30) ++ "Z";
       Subscription.autoRenewing := true |} in
  (now + days 30 < datetime_span ->
   fst (get_subscription w) = Py.Ok subscription
   /\ fst (verify_receipt payload w)
      = Py.Ok {| ReceiptResponse.success := true;
                 ReceiptResponse.subscription := subscription;
                 ReceiptResponse.message := "Subscription activated" |})
  /\ (datetime_span <= now + days 30 ->
      fst (get_subscription w) = Py.Raised Py.OverflowError
      /\ fst (verify_receipt payload w) = Py.Raised Py.OverflowError)
  /\ store (snd (get_subscription w)) = store w
  /\ store (snd (verify_receipt payload w)) = store w.
Proof.
  cbv zeta.
  pose proof (Z.mod_pos_bound (clock_source (env w) (clock_pos (env w))) datetime_span
                eq_refl) as Hnow.
  unfold get_subscription, verify_receipt, bind, utcnow, datetime_add. cbn [fst snd].
  cbv zeta.
  set (now := clock_source (env w) (clock_pos (env w)) mod datetime_span) in *.
  assert (Hpos : (now + days 30 <? 0) = false)
    by (apply Z.ltb_ge; unfold days; lia).
  rewrite Hpos. cbn [orb].
  destruct (datetime_span <=? now + days 30) eqn:E;
    [apply Z.leb_le in E | apply Z.leb_gt in E]; cbn.
  - split; [lia|]. split; [auto|]. split; reflexivity.
  - split; [auto|]. split; [lia|]. split; reflexivity.
Qed.

End Billing.

(** ** Instances *)

Lemma started_users (e : Env) : MOCK_USERS (store (started e)) = seed_users.
Proof. destruct (startup_spec e) as (_ & Hu & _). exact Hu. Qed.

Lemma property_1_in_catalog : In "property-1" catalog_ids.
Proof. apply (property_id_in_catalog 1). lia. Qed.

(** X4: the profile right after start-up. *)
Lemma seed_accounts_persist_witness :
  get_profile (started zero_env) = (Py.Ok test_user, started zero_env).
Proof.
  destruct (@seed_accounts_persist example_lib (started zero_env)
              (reachable_startup zero_env)) as (_ & _ & Hprofile & _).
  exact Hprofile.
Defined.

(** X5: a new account right after start-up, then a login with one of
    the accepted passwords. *)
Lemma register_then_login_witness :
  exists r w',
    @register example_lib
      {| RegisterRequest.firstName := "Dana";
         RegisterRequest.lastName := "Levi";
         RegisterRequest.email := "dana@example.com";
         RegisterRequest.password := "secret";
         RegisterRequest.phone := None |} (started zero_env) = (Py.Ok r, w')
    /\ exists r' w'',
         login {| LoginRequest.email := "dana@example.com";
                  LoginRequest.password := "demo123" |} w' = (Py.Ok r', w'')
         /\ AuthResponse.user r' = AuthResponse.user r.
Proof.
  assert (Hfree : MOCK_USERS (store (started zero_env)) !! "dana@example.com" = None).
  { rewrite started_users. unfold seed_users.
    rewrite !lookup_insert_ne by discriminate. apply lookup_empty. }
  destruct (@register_then_login example_lib
              {| RegisterRequest.firstName := "Dana";
                 RegisterRequest.lastName := "Levi";
                 RegisterRequest.email := "dana@example.com";
                 RegisterRequest.password := "secret";
                 RegisterRequest.phone := None |} (started zero_env) Hfree)
    as (r & w' & Hreg & Hlogin & _).
  exists r, w'. split; [exact Hreg|].
  destruct (Hlogin "demo123" (or_intror eq_refl)) as (r' & w'' & Hl & Hu & _).
  exists r', w''. split; [exact Hl | exact Hu].
Defined.

(** X6: saving [property-1] right after start-up. *)
Lemma save_property_witness :
  exists s w',
    @save_property example_lib
      {| SavePropertyRequest.propertyId := "property-1";
         SavePropertyRequest.alertsEnabled := Some true |} (started zero_env)
    = (Py.Ok s, w')
    /\ SavedProperty.id s = "saved-property-1"
    /\ SavedMeta.daysSaved (SavedProperty.meta s) = 0.
Proof.
  destruct (@save_property_answers_without_saving example_lib
              {| SavePropertyRequest.propertyId := "property-1";
                 SavePropertyRequest.alertsEnabled := Some true |} (started zero_env)
              (reachable_startup zero_env)) as (Hin & _).
  destruct (Hin property_1_in_catalog) as (p & e' & _ & _ & Hrun).
  eexists _, _. split; [exact Hrun|]. split; reflexivity.
Defined.

(** X8: the pages of 20 of the whole catalog. *)
Lemma search_pages_cover_witness :
  exists resp,
    @search_properties example_lib 2 20 None (started zero_env)
    = (Py.Ok resp, started zero_env)
    /\ SearchResponse.items resp = @search_items example_lib 2 20 None (started zero_env).
Proof.
  destruct (@search_pages_cover example_lib 20 None (started zero_env) ltac:(lia))
    as (Hpages & _).
  destruct (Hpages 2) as (resp & Hresp & Hitems & _).
  exists resp. split; [exact Hresp | exact Hitems].
Defined.

(** X9: page -1 with a page size of 20. *)
Lemma search_page_below_one_witness :
  exists resp,
    @search_properties example_lib (-1) 20 None (started zero_env)
    = (Py.Ok resp, started zero_env)
    /\ Z.of_nat (length (SearchResponse.items resp)) = 20.
Proof.
  destruct (@search_page_below_one example_lib (-1) 20 None (started zero_env)
              ltac:(lia) ltac:(lia)) as (resp & Hresp & _ & _ & _ & Hlen).
  exists resp. split; [exact Hresp|]. rewrite (Hlen ltac:(lia)).
  cbn [filtered_properties]. rewrite started_catalog, catalog_length. reflexivity.
Defined.

(** X10: the third page of 20. *)
Lemma search_without_query_witness :
  exists resp,
    @search_properties example_lib 3 20 None (started zero_env)
    = (Py.Ok resp, started zero_env)
    /\ List.map Property.id (SearchResponse.items resp)
       = List.map (fun i => "property-" ++ Py.str_of_int i) (seqZ 41 10).
Proof.
  destruct (@search_without_query_lists_ids_in_order example_lib 3 20 (started zero_env)
              (reachable_startup zero_env) ltac:(lia) ltac:(lia))
    as (resp & Hresp & Hids & _).
  exists resp. split; [exact Hresp|]. rewrite Hids. vm_compute. reflexivity.
Defined.

(** X11: an upper-case and a lower-case query. *)
Lemma search_query_case_witness :
  @search_properties example_lib 1 20 (Some "TEL") (started zero_env)
  = @search_properties example_lib 1 20 (Some "tel") (started zero_env).
Proof.
  apply (@search_query_case_is_ignored example_lib 1 20 "TEL" "tel" (started zero_env)).
  reflexivity.
Defined.

(** X12: the detail of [property-1] right after start-up. *)
Lemma get_property_detail_witness :
  exists full w',
    get_property "property-1" (started zero_env) = (Py.Ok full, w')
    /\ 0 <= Amenities.parkingSpots (FullProperty.amenities full) <= 2.
Proof.
  destruct (@get_property_detail_fields example_lib "property-1" (started zero_env)
              (reachable_startup zero_env) property_1_in_catalog)
    as (p & full & w' & _ & _ & Hrun & _ & Hfields & _).
  exists full, w'. split; [exact Hrun|]. unfold detail_fields in Hfields. tauto.
Defined.

(** X16: the handler called right after start-up, on 2024-05-01. *)
Lemma get_saved_properties_witness :
  exists items w',
    @get_saved_properties example_lib (started clock_env) = (Py.Ok items, w')
    /\ length items = 5%nat.
Proof.
  destruct (@get_saved_properties_five_entries example_lib (started clock_env)
              (reachable_startup clock_env)) as (Hitems & Hreturns & _).
  destruct Hreturns as (items & w' & Hrun).
  { intros k. vm_compute. discriminate. }
  exists items, w'. split; [exact Hrun|].
  destruct (Hitems items w' Hrun) as (_ & _ & Hlen & _). exact Hlen.
Defined.
